(** * Fluid65: the SPH physics update of [src/main.cpp]

    The simulation core of Fluid65 is the function [updateParticles] and the
    kernel and sampling functions it calls.  This development embeds them as
    Rocq functions and proves the properties the specification states about
    them.

    Modelling conventions.
    - A C++ [float] is modelled by a real number: [+ - * /] are the exact
      operations of [R], [sqrtf] is [sqrt], and [powf] (called in the source
      with the exponents 2, 3, 6 and 9 only) is the integer power.  Rounding,
      overflow and the special values of IEEE arithmetic are outside this
      model.  In particular a division by zero has a value in [R] where the
      code produces an infinity or a NaN: what the model says at a zero
      divisor (a zero density, a support radius 0) says nothing about the
      code, and the properties below carry the hypotheses that exclude it.
      Where a property turns on rounding, the code is embedded a second time
      over binary32 numbers (module [Binary32]).
    - The global array [particles[numParticles]] is a [list Particle]; its
      length plays the role of [numParticles].  A loop
      [for (i = 0; i < numParticles; i++) particles[i].f = e] is modelled as
      written: it walks the indices in order and overwrites the array in place,
      so that later iterations read the elements already overwritten. *)

From Stdlib Require Import Reals Lra Psatz ZArith SpecFloat.
From stdpp Require Import base decidable list.

#[local] Open Scope R_scope.

(** ** Decidable comparisons on reals, for the source's [if] conditions *)

#[global] Instance Rle_decision (x y : R) : Decision (x <= y) := Rle_dec x y.
#[global] Instance Rge_decision (x y : R) : Decision (x >= y) := Rge_dec x y.
#[global] Instance Rlt_decision (x y : R) : Decision (x < y) := Rlt_dec x y.
#[global] Instance Rgt_decision (x y : R) : Decision (x > y) := Rgt_dec x y.
#[global] Instance Req_decision : EqDecision R := Req_dec_T.

(** ** raymath: the vector helpers the source calls

    raymath.h belongs to raylib and is not part of the sources of this
    repository.  Its helpers are modelled here componentwise, as the
    specification uses them: a 3D vector of floats with the usual sum,
    difference, scaling, negation, dot product, Euclidean length,
    normalisation and reflection. *)

Record Vector3 : Type := mkVector3 { vx : R; vy : R; vz : R }.

(** Modelled from the spec: raymath's Vector3Zero, the zero vector. *)
Definition Vector3Zero : Vector3 := mkVector3 0 0 0.

(** Modelled from the spec: raymath's Vector3Add, the componentwise sum. *)
Definition Vector3Add (v1 v2 : Vector3) : Vector3 :=
  mkVector3 (vx v1 + vx v2) (vy v1 + vy v2) (vz v1 + vz v2).

(** Modelled from the spec: raymath's Vector3Subtract, the componentwise
    difference. *)
Definition Vector3Subtract (v1 v2 : Vector3) : Vector3 :=
  mkVector3 (vx v1 - vx v2) (vy v1 - vy v2) (vz v1 - vz v2).

(** Modelled from the spec: raymath's Vector3Scale, every component times the
    scalar. *)
Definition Vector3Scale (v : Vector3) (scalar : R) : Vector3 :=
  mkVector3 (vx v * scalar) (vy v * scalar) (vz v * scalar).

(** Modelled from the spec: raymath's Vector3Negate. *)
Definition Vector3Negate (v : Vector3) : Vector3 :=
  mkVector3 (- vx v) (- vy v) (- vz v).

(** Modelled from the spec: raymath's Vector3DotProduct. *)
Definition Vector3DotProduct (v1 v2 : Vector3) : R :=
  vx v1 * vx v2 + vy v1 * vy v2 + vz v1 * vz v2.

(** Modelled from the spec: raymath's Vector3Length, the Euclidean norm. *)
Definition Vector3Length (v : Vector3) : R :=
  sqrt (vx v * vx v + vy v * vy v + vz v * vz v).

(** Modelled from the spec: raymath's Vector3Normalize.  The spec fixes the
    normalisation of the zero vector to be the zero vector (a zero
    contribution); raymath does the same, leaving a vector of length 0 as it
    is and scaling every other vector by the inverse of its length. *)
Definition Vector3Normalize (v : Vector3) : Vector3 :=
  let length := Vector3Length v in
  if decide (length <> 0)
  then let ilength := 1 / length in
       mkVector3 (vx v * ilength) (vy v * ilength) (vz v * ilength)
  else v.

(** Modelled from the spec: raymath's Vector3Reflect, the reflection of [v]
    about the plane of unit normal [normal]: [v - 2 (v . normal) normal]. *)
Definition Vector3Reflect (v normal : Vector3) : Vector3 :=
  let dotProduct := Vector3DotProduct v normal in
  mkVector3 (vx v - (2 * vx normal) * dotProduct)
            (vy v - (2 * vy normal) * dotProduct)
            (vz v - (2 * vz normal) * dotProduct).

(** ** Constants of the simulation *)

Definition sphereSize : R := 40.
Definition sampleRadius : R := 12.
Definition restDensity : R := 1 / 10000.
Definition gasConstant : R := 100.
Definition viscosity : R := 1 / 100.
Definition surfaceTension : R := 50.

(** [powf x n] for the whole exponents the source uses.  The constant [PI] of
    raylib.h is the real number [PI]. *)
Definition powf (x : R) (n : nat) : R := x ^ n.

(** ** The particle *)

Record Particle : Type := mkParticle {
  position : Vector3;
  velocity : Vector3;
  acceleration : Vector3;
  mass : R;
  density : R;
  pressure : R;
  colorGradient : Vector3
}.

Definition set_position (p : Particle) (v : Vector3) : Particle :=
  mkParticle v (velocity p) (acceleration p) (mass p) (density p) (pressure p)
             (colorGradient p).
Definition set_velocity (p : Particle) (v : Vector3) : Particle :=
  mkParticle (position p) v (acceleration p) (mass p) (density p) (pressure p)
             (colorGradient p).
Definition set_acceleration (p : Particle) (v : Vector3) : Particle :=
  mkParticle (position p) (velocity p) v (mass p) (density p) (pressure p)
             (colorGradient p).
Definition set_density (p : Particle) (d : R) : Particle :=
  mkParticle (position p) (velocity p) (acceleration p) (mass p) d (pressure p)
             (colorGradient p).
Definition set_pressure (p : Particle) (x : R) : Particle :=
  mkParticle (position p) (velocity p) (acceleration p) (mass p) (density p) x
             (colorGradient p).
Definition set_colorGradient (p : Particle) (v : Vector3) : Particle :=
  mkParticle (position p) (velocity p) (acceleration p) (mass p) (density p)
             (pressure p) v.

(** ** Smoothing kernels (main.cpp, lines 66-119) *)

Definition W_poly6 (r : Vector3) (h : R) : R :=
  let magnitude := Vector3Length r in
  if decide (0 <= magnitude /\ magnitude <= h)
  then (315 / (64 * PI * powf h 9)) * powf (h * h - magnitude * magnitude) 3
  else 0.

Definition W_poly6_Gradient (r : Vector3) (h : R) : R :=
  let magnitude := Vector3Length r in
  if decide (0 <= magnitude /\ magnitude <= h)
  then (315 / (64 * PI * powf h 9)) * (-2 * magnitude) * 3
       * powf (h * h - magnitude * magnitude) 2
  else 0.

Definition W_poly6_Laplacian (r : Vector3) (h : R) : R :=
  let magnitude := Vector3Length r in
  if decide (0 <= magnitude /\ magnitude <= h)
  then (315 / (64 * PI * powf h 9)) * 6 * (h * h - magnitude * magnitude)
       * (5 * magnitude * magnitude - h * h)
  else 0.

Definition W_viscosity_Laplacian (r : Vector3) (h : R) : R :=
  let magnitude := Vector3Length r in
  if decide (0 <= magnitude /\ magnitude <= h)
  then (45 / (PI * powf h 6)) * (h - magnitude)
  else 0.

Definition W_spiky (r : Vector3) (h : R) : R :=
  let magnitude := Vector3Length r in
  if decide (0 <= magnitude /\ magnitude <= h)
  then (15 / (PI * powf h 6)) * powf (h - magnitude) 3
  else 0.

Definition W_spiky_Gradient (r : Vector3) (h : R) : R :=
  let magnitude := Vector3Length r in
  if decide (0 <= magnitude /\ magnitude <= h)
  then (15 / (PI * powf h 6)) * (-1) * 3 * powf (h - magnitude) 2
  else 0.

(** ** Sampling functions (main.cpp, lines 121-179)

    Each takes the global array as its first argument and the particle passed
    by value as its second.  The loops over [i] run through the whole array in
    index order, starting from the source's initial accumulator. *)

Definition sampleDensity (particles : list Particle) (particle : Particle) : R :=
  fold_left
    (fun density pi =>
       density + mass pi
                 * W_poly6 (Vector3Subtract (position particle) (position pi))
                           sampleRadius)
    particles 0.

Definition samplePressure (particle : Particle) : R :=
  let pressure := gasConstant * (density particle - restDensity) in
  pressure.

(** The vector added to [colorGradient] by the iteration that visits [pi]. *)
Definition colorGradientTerm (particle pi : Particle) : Vector3 :=
  let r := Vector3Subtract (position pi) (position particle) in
  Vector3Scale (Vector3Normalize r)
               (mass pi * (1 / density pi) * W_poly6_Gradient r sampleRadius).

Definition sampleColorGradient (particles : list Particle) (particle : Particle)
  : Vector3 :=
  fold_left
    (fun colorGradient pi => Vector3Add colorGradient (colorGradientTerm particle pi))
    particles Vector3Zero.

Definition sampleColorDivergence (particles : list Particle) (particle : Particle)
  : Vector3 :=
  fold_left
    (fun colorDivergence pi =>
       Vector3Add colorDivergence
         (Vector3Scale (colorGradient pi)
            (mass pi * (1 / density pi)
             * W_poly6_Laplacian
                 (Vector3Subtract (position particle) (position pi))
                 sampleRadius)))
    particles Vector3Zero.

(** The vector subtracted from [pressureForce] by the iteration that visits
    [pi]; C++ parses [m * (p + q) / (2 * d) * w] as [((m * (p + q)) / (2 * d)) * w]. *)
Definition pressureForceTerm (particle pi : Particle) : Vector3 :=
  let r := Vector3Subtract (position particle) (position pi) in
  Vector3Scale (Vector3Normalize r)
               (mass pi * (pressure particle + pressure pi) / (2 * density pi)
                * W_spiky_Gradient r sampleRadius).

Definition samplePressureForce (particles : list Particle) (particle : Particle)
  : Vector3 :=
  fold_left
    (fun pressureForce pi =>
       Vector3Subtract pressureForce (pressureForceTerm particle pi))
    particles Vector3Zero.

Definition sampleViscosityForce (particles : list Particle) (particle : Particle)
  : Vector3 :=
  fold_left
    (fun viscosityForce pi =>
       Vector3Add viscosityForce
         (Vector3Scale (Vector3Subtract (velocity pi) (velocity particle))
            (viscosity * mass pi * (1 / density pi)
             * W_viscosity_Laplacian
                 (Vector3Subtract (position particle) (position pi))
                 sampleRadius)))
    particles Vector3Zero.

Definition sampleSurfaceTractionForce (particles : list Particle)
  (particle : Particle) : Vector3 :=
  let surfaceTractionForce :=
    Vector3Scale (Vector3Normalize (colorGradient particle))
                 (- surfaceTension
                  * Vector3Length (sampleColorDivergence particles particle)) in
  surfaceTractionForce.

(** ** The simulation step (main.cpp, lines 181-201) *)

(** [for (int i = 0; i < n; i++) body]: the body runs for [i = 0, ..., n-1] in
    order, each run on the array left by the previous one. *)
Definition forLoop (n : nat) (body : nat -> list Particle -> list Particle)
  (particles : list Particle) : list Particle :=
  fold_left (fun ps i => body i ps) (seq 0 n) particles.

(** [particles[i] = f(particles[i])] where [f] may read the whole array. *)
Definition assign (f : list Particle -> Particle -> Particle) (i : nat)
  (particles : list Particle) : list Particle :=
  match particles !! i with
  | Some p => <[i := f particles p]> particles
  | None => particles
  end.

(** Line 182. *)
Definition densityBody (particles : list Particle) (p : Particle) : Particle :=
  set_density p (sampleDensity particles p).

(** Line 183. *)
Definition pressureBody (particles : list Particle) (p : Particle) : Particle :=
  set_pressure p (samplePressure p).

(** Line 184. *)
Definition colorGradientBody (particles : list Particle) (p : Particle)
  : Particle :=
  set_colorGradient p (sampleColorGradient particles p).

(** Lines 187-189: the force on [p] before the division by its density. *)
Definition netForce (particles : list Particle) (p : Particle) : Vector3 :=
  let netForce :=
    Vector3Add (samplePressureForce particles p)
               (Vector3Scale (mkVector3 0 1 0) (-0.1 * mass p)) in
  let netForce := Vector3Add netForce (sampleViscosityForce particles p) in
  let netForce := Vector3Add netForce (sampleSurfaceTractionForce particles p) in
  netForce.

(** Lines 186-191. *)
Definition accelerationBody (particles : list Particle) (p : Particle)
  : Particle :=
  set_acceleration p (Vector3Scale (netForce particles p) (1 / density p)).

(** Lines 194-198: the boundary handler, run between the velocity update and
    the position update. *)
Definition boundaryHandler (p : Particle) : Particle :=
  if decide (Vector3Length (position p) >= sphereSize - 1)
  then if decide (Vector3DotProduct (position p) (velocity p) > 0)
       then set_velocity p
              (Vector3Scale
                 (Vector3Reflect (velocity p)
                    (Vector3Negate (Vector3Normalize (position p))))
                 0.8)
       else p
  else p.

(** Lines 192-200. *)
Definition integrateBody (deltaTime : R) (particles : list Particle)
  (p : Particle) : Particle :=
  let p := set_velocity p
             (Vector3Add (velocity p) (Vector3Scale (acceleration p) deltaTime)) in
  let p := boundaryHandler p in
  set_position p (Vector3Add (position p) (Vector3Scale (velocity p) deltaTime)).

Definition densityPass (particles : list Particle) : list Particle :=
  forLoop (length particles) (assign densityBody) particles.
Definition pressurePass (particles : list Particle) : list Particle :=
  forLoop (length particles) (assign pressureBody) particles.
Definition colorGradientPass (particles : list Particle) : list Particle :=
  forLoop (length particles) (assign colorGradientBody) particles.
Definition accelerationPass (particles : list Particle) : list Particle :=
  forLoop (length particles) (assign accelerationBody) particles.
Definition integratePass (deltaTime : R) (particles : list Particle)
  : list Particle :=
  forLoop (length particles) (assign (integrateBody deltaTime)) particles.

Definition updateParticles (deltaTime : R) (particles : list Particle)
  : list Particle :=
  let particles := densityPass particles in
  let particles := pressurePass particles in
  let particles := colorGradientPass particles in
  let particles := accelerationPass particles in
  integratePass deltaTime particles.

(** ** The driver (main.cpp, lines 219-223 and 240-280) *)

(** The global array is zero-initialised; [main] then gives every particle a
    sampled position, zero velocity and mass 1. *)
Definition initParticles (samples : list Vector3) : list Particle :=
  map (fun s => mkParticle s Vector3Zero Vector3Zero 1 0 0 Vector3Zero) samples.

(** One iteration of the render loop, as far as the particles go.  The real
    time [elapsed] the frame took is an input of the environment that the loop
    never reads. *)
Definition frame (particles : list Particle) (elapsed : R) : list Particle :=
  updateParticles 0.04 particles.

(** The render loop over the frames for which the window stays open, each
    given with the real time it took. *)
Definition mainLoop (frames : list R) (particles : list Particle)
  : list Particle :=
  fold_left frame frames particles.

(** ** The colour field (main.cpp, lines 134-140)

    [sampleColor] is defined in the source but [updateParticles] does not
    call it. *)
Definition sampleColor (particles : list Particle) (particle : Particle) : R :=
  fold_left
    (fun color pi =>
       color + mass pi * (1 / density pi)
               * W_poly6 (Vector3Subtract (position particle) (position pi))
                         sampleRadius)
    particles 0.

(** ** Frame capture (main.cpp, lines 43-64)

    [textureToMat] reads the pixels of the rendered texture back and builds
    the frame handed to the video writer.  raylib's [LoadImageFromTexture]
    and [LoadImageColors] give the image as its [width], its [height] and an
    array of [Color]s in row-major order; these three are the inputs of the
    model.  Reading the array or writing the matrix outside its bounds has
    no defined result in C++: the model returns [None] there.  The indices
    are [int]s in the source and natural numbers here; the properties below
    assume that width * height fits an [int]. *)

(** raylib's [Color]: four unsigned 8-bit channels. *)
Record Color : Type := mkColor {
  cr : Byte.byte; cg : Byte.byte; cb : Byte.byte; ca : Byte.byte
}.

(** OpenCV's [cv::Vec4b] and [cv::Vec3b]. *)
Definition Vec4b : Type := (Byte.byte * Byte.byte * Byte.byte * Byte.byte)%type.
Definition Vec3b : Type := (Byte.byte * Byte.byte * Byte.byte)%type.

(** [cv::Mat mat(rows, cols, CV_8UC4)]: a matrix of the given size whose
    cells are not initialised; [fill] stands for whatever they hold. *)
Definition newMat (rows cols : nat) (fill : nat -> nat -> Vec4b)
  : list (list Vec4b) :=
  map (fun y => map (fill y) (seq 0 cols)) (seq 0 rows).

(** [mat.at<cv::Vec4b>(y, x) = v]. *)
Definition matSet (mat : list (list Vec4b)) (y x : nat) (v : Vec4b)
  : option (list (list Vec4b)) :=
  match mat !! y with
  | Some row =>
      if decide (x < length row)%nat
      then Some (<[y := <[x := v]> row]> mat)
      else None
  | None => None
  end.

(** [cv::cvtColor(mat, mat_bgr, cv::COLOR_BGRA2BGR)]: as the comment in the
    source says, the conversion that drops the alpha channel.  OpenCV
    requires a source with at least one element and throws on an empty one:
    no result there. *)
Definition cvtColor_BGRA2BGR (mat : list (list Vec4b))
  : option (list (list Vec3b)) :=
  match concat mat with
  | [] => None
  | _ :: _ =>
      Some (map (map (fun v : Vec4b => let '(b, g, r, _) := v in (b, g, r)))
                mat)
  end.

(** A [for] loop whose body can fail. *)
Definition forLoopM {S : Type} (n : nat) (body : nat -> S -> option S) (s : S)
  : option S :=
  fold_left
    (fun acc i => match acc with Some s => body i s | None => None end)
    (seq 0 n) (Some s).

(** Lines 51-52. *)
Definition copyPixel (width : nat) (pixels : list Color) (y x : nat)
  (mat : list (list Vec4b)) : option (list (list Vec4b)) :=
  match pixels !! (y * width + x)%nat with
  | Some pixel => matSet mat y x (cb pixel, cg pixel, cr pixel, ca pixel)
  | None => None
  end.

Definition textureToMat (width height : nat) (pixels : list Color)
  (fill : nat -> nat -> Vec4b) : option (list (list Vec3b)) :=
  let mat := newMat height width fill in
  match forLoopM height
          (fun y mat => forLoopM width (copyPixel width pixels y) mat) mat with
  | Some mat => let mat_bgr := cvtColor_BGRA2BGR mat in mat_bgr
  | None => None
  end.

(** ** The boundary handler over binary32 numbers

    The same lines 194-198, with [float] as the IEEE binary32 format
    (24 bits of precision, round to nearest even) and every operation
    rounded as the code rounds it.  The functions compute. *)

Module Binary32.

Definition prec : Z := 24%Z.
Definition emax : Z := 128%Z.

(** A [float] of the source. *)
Definition float : Type := spec_float.

(** The float of a whole number, and the literals of the source. *)
Definition ofZ (z : Z) : float := binary_normalize prec emax z 0%Z false.
Definition fadd : float -> float -> float := SFadd prec emax.
Definition fsub : float -> float -> float := SFsub prec emax.
Definition fmul : float -> float -> float := SFmul prec emax.
Definition fdiv : float -> float -> float := SFdiv prec emax.
Definition sqrtf : float -> float := SFsqrt prec emax.

(** [0.8f]: the binary32 number nearest to 8/10. *)
Definition restitution : float := fdiv (ofZ 8) (ofZ 10).
Definition sphereSize : float := ofZ 40.

Record Vector3 : Type := mkVector3 { x : float; y : float; z : float }.

(** Modelled from the spec: raymath's Vector3Length. *)
Definition Vector3Length (v : Vector3) : float :=
  sqrtf (fadd (fadd (fmul (x v) (x v)) (fmul (y v) (y v))) (fmul (z v) (z v))).

(** Modelled from the spec: raymath's Vector3DotProduct. *)
Definition Vector3DotProduct (v1 v2 : Vector3) : float :=
  fadd (fadd (fmul (x v1) (x v2)) (fmul (y v1) (y v2))) (fmul (z v1) (z v2)).

(** Modelled from the spec: raymath's Vector3Scale. *)
Definition Vector3Scale (v : Vector3) (scalar : float) : Vector3 :=
  mkVector3 (fmul (x v) scalar) (fmul (y v) scalar) (fmul (z v) scalar).

(** Modelled from the spec: raymath's Vector3Negate. *)
Definition Vector3Negate (v : Vector3) : Vector3 :=
  mkVector3 (SFopp (x v)) (SFopp (y v)) (SFopp (z v)).

(** Modelled from the spec: raymath's Vector3Normalize. *)
Definition Vector3Normalize (v : Vector3) : Vector3 :=
  let length := Vector3Length v in
  if negb (SFeqb length (ofZ 0))
  then let ilength := fdiv (ofZ 1) length in
       mkVector3 (fmul (x v) ilength) (fmul (y v) ilength) (fmul (z v) ilength)
  else v.

(** Modelled from the spec: raymath's Vector3Reflect. *)
Definition Vector3Reflect (v normal : Vector3) : Vector3 :=
  let dotProduct := Vector3DotProduct v normal in
  mkVector3 (fsub (x v) (fmul (fmul (ofZ 2) (x normal)) dotProduct))
            (fsub (y v) (fmul (fmul (ofZ 2) (y normal)) dotProduct))
            (fsub (z v) (fmul (fmul (ofZ 2) (z normal)) dotProduct)).

(** The test of line 194 and the test of line 197. *)
Definition reflects (position velocity : Vector3) : bool :=
  SFleb (fsub sphereSize (ofZ 1)) (Vector3Length position)
  && SFltb (ofZ 0) (Vector3DotProduct position velocity).

(** Lines 194-198: the velocity they leave. *)
Definition boundaryHandler (position velocity : Vector3) : Vector3 :=
  if SFleb (fsub sphereSize (ofZ 1)) (Vector3Length position)
  then if SFltb (ofZ 0) (Vector3DotProduct position velocity)
       then Vector3Scale
              (Vector3Reflect velocity (Vector3Negate (Vector3Normalize position)))
              restitution
       else velocity
  else velocity.

(** The exact value of a finite binary32 number times 2^149, a whole
    number. *)
Definition scaled (f : float) : Z :=
  match f with
  | S754_finite s m e =>
      ((if s then Z.neg m else Z.pos m) * 2 ^ (e + 149))%Z
  | _ => 0%Z
  end.

(** The exact squared Euclidean norm of a vector, times 2^298. *)
Definition exactSquaredLength (v : Vector3) : Z :=
  (scaled (x v) * scaled (x v) + scaled (y v) * scaled (y v)
   + scaled (z v) * scaled (z v))%Z.

(** A particle on the sphere of radius 39 with a velocity of whole
    components. *)
Definition polePosition : Vector3 := mkVector3 (ofZ 0) (ofZ 0) (ofZ 39).
Definition poleVelocity : Vector3 := mkVector3 (ofZ 1) (ofZ 2) (ofZ 3).

End Binary32.

(** * Vocabulary of the properties *)

(** What each pass reads of the other particles. *)
Definition densityView (p : Particle) := (position p, mass p).
Definition colorGradientView (p : Particle) := (position p, mass p, density p).
Definition accelerationView (p : Particle) :=
  (position p, velocity p, mass p, density p, pressure p, colorGradient p).

(** [sumOver f ps] is the sum of [f pj] over all particles [pj] of [ps]. *)
Definition sumOver (f : Particle -> R) (ps : list Particle) : R :=
  fold_right (fun pj acc => f pj + acc) 0 ps.

(** The density summand of neighbour [pj] seen from [p]. *)
Definition densityTerm (p pj : Particle) : R :=
  mass pj * W_poly6 (Vector3Subtract (position p) (position pj)) sampleRadius.

(** The condition under which lines 194-197 overwrite the velocity. *)
Definition reflects (p : Particle) : Prop :=
  Vector3Length (position p) >= sphereSize - 1
  /\ Vector3DotProduct (position p) (velocity p) > 0.

(** The velocity line 197 assigns. *)
Definition reflectedVelocity (p : Particle) : Vector3 :=
  Vector3Scale
    (Vector3Reflect (velocity p) (Vector3Negate (Vector3Normalize (position p))))
    0.8.

(** The particle as line 193 leaves it. *)
Definition accelerated (dt : R) (p : Particle) : Particle :=
  set_velocity p (Vector3Add (velocity p) (Vector3Scale (acceleration p) dt)).

(** The state of the array when the integration pass starts. *)
Definition beforeIntegration (ps : list Particle) : list Particle :=
  accelerationPass (colorGradientPass (pressurePass (densityPass ps))).

(** The squared length of a vector. *)
Definition lengthSq (v : Vector3) : R :=
  vx v * vx v + vy v * vy v + vz v * vz v.

(** The six smoothing kernels. *)
Definition kernels : list (Vector3 -> R -> R) :=
  [W_poly6; W_poly6_Gradient; W_poly6_Laplacian;
   W_viscosity_Laplacian; W_spiky; W_spiky_Gradient].

Definition zero_outside_support (W : Vector3 -> R -> R) (h : R) : Prop :=
  forall r, Vector3Length r > h -> W r h = 0.

Definition zero_at_support_boundary (W : Vector3 -> R -> R) (h : R) : Prop :=
  forall r, Vector3Length r = h -> W r h = 0.

(** Continuity of [r |-> W r h] at every displacement of length [h]. *)
Definition continuous_at_support_boundary (W : Vector3 -> R -> R) (h : R)
  : Prop :=
  forall r0, Vector3Length r0 = h ->
  forall eps, 0 < eps ->
  exists delta, 0 < delta
    /\ forall r, Vector3Length (Vector3Subtract r r0) < delta ->
                 Rabs (W r h - W r0 h) < eps.

(** The guard that section 7 of the specification asks for, in its words: an
    array in which the density of some particle is at most [eps] is rejected,
    any other array is stepped. *)
Definition guardedUpdate (eps dt : R) (ps : list Particle)
  : option (list Particle) :=
  if decide (Exists (fun p => density p <= eps) (densityPass ps))
  then None
  else Some (updateParticles dt ps).

(** A particle without mass, alone in its array: its density is 0. *)
Definition masslessParticle : Particle :=
  mkParticle Vector3Zero Vector3Zero Vector3Zero 0 0 0 Vector3Zero.

(** A particle at the origin with mass, density and pressure 1. *)
Definition lightParticle : Particle :=
  mkParticle (mkVector3 0 0 0) Vector3Zero Vector3Zero 1 1 1 Vector3Zero.

(** The scenario of the specification: two particles as main initialises
    them, at the origin and one unit along x. *)
Definition originParticle : Particle :=
  mkParticle (mkVector3 0 0 0) Vector3Zero Vector3Zero 1 0 0 Vector3Zero.
Definition twoParticles : list Particle :=
  initParticles [mkVector3 0 0 0; mkVector3 1 0 0].

(** A particle on the containment sphere moving radially outward, and one
    moving inward. *)
Definition outboundParticle : Particle :=
  mkParticle (mkVector3 40 0 0) (mkVector3 1 0 0) Vector3Zero 1 1 0 Vector3Zero.
Definition inboundParticle : Particle :=
  mkParticle (mkVector3 40 0 0) (mkVector3 (-1) 0 0) Vector3Zero 1 1 0
             Vector3Zero.

(** A particle like [lightParticle], one unit away from it. *)
Definition twinParticle : Particle :=
  mkParticle (mkVector3 1 0 0) Vector3Zero Vector3Zero 1 1 1 Vector3Zero.

(** [q] lies within the support radius of [p]. *)
Definition inSupport (p q : Particle) : Prop :=
  Vector3Length (Vector3Subtract (position p) (position q)) <= sampleRadius.

#[global] Instance inSupport_decision (p q : Particle) :
  Decision (inSupport p q).
Proof. unfold inSupport. apply _. Defined.

(** The particle [p] at index [i] of the array has no other particle within
    its support radius. *)
Definition isolated (ps : list Particle) (i : nat) (p : Particle) : Prop :=
  ps !! i = Some p
  /\ forall j x, ps !! j = Some x -> j <> i -> ~ inSupport p x.

(** The array as the density, pressure and colour-gradient passes leave it,
    which is the array the force loop reads. *)
Definition estimated (ps : list Particle) : list Particle :=
  colorGradientPass (pressurePass (densityPass ps)).

(** The particle [p] after the same three passes of a step on [ps]. *)
Definition estimatedParticle (ps : list Particle) (p : Particle) : Particle :=
  colorGradientBody (pressurePass (densityPass ps))
    (pressureBody (densityPass ps) (densityBody ps p)).

(** What a step reads of a particle before overwriting the rest: where it is,
    how fast it moves and its mass. *)
Definition core (p : Particle) := (position p, velocity p, mass p).
Definition coreDensity (p : Particle) := (core p, density p).
Definition coreDensityPressure (p : Particle) :=
  (core p, density p, pressure p).


(** The cell [textureToMat] stores for the pixel [c]: blue, green, red, and
    the alpha channel until the conversion drops it. *)
Definition bgra (c : Color) : Vec4b := (cb c, cg c, cr c, ca c).
Definition bgr (c : Color) : Vec3b := (cb c, cg c, cr c).

(** The cell of row [y], column [x] once the loops have passed it. *)
Definition copiedCell (width : nat) (pixels : list Color)
  (fill : nat -> nat -> Vec4b) (y x : nat) : Vec4b :=
  from_option bgra (fill y x) (pixels !! (y * width + x)%nat).

(** A pixel with distinct channels and a matrix content to start from. *)
Definition samplePixel : Color := mkColor Byte.x01 Byte.x02 Byte.x03 Byte.xff.
Definition zeroFill (y x : nat) : Vec4b :=
  (Byte.x00, Byte.x00, Byte.x00, Byte.x00).

(** A displacement of length 1. *)
Definition unitX : Vector3 := mkVector3 1 0 0.

(** The second particle of [twoParticles]. *)
Definition unitParticle : Particle :=
  mkParticle (mkVector3 1 0 0) Vector3Zero Vector3Zero 1 0 0 Vector3Zero.

(** * Properties *)

(** ** In-place loops

    A pass [for i: particles[i] = f(particles[i])] overwrites the array while
    it is still being read.  When [f] only reads, of the array, a part [view]
    that [f] itself leaves as it was, the pass computes the same array as
    applying [f] to every element against the array from before the pass. *)

Section InPlace.
Context {V : Type} (view : Particle -> V).
Variable f : list Particle -> Particle -> Particle.
Hypothesis f_keeps_view : forall ps p, view (f ps p) = view p.
Hypothesis f_reads_view :
  forall ps ps' p, map view ps = map view ps' -> f ps p = f ps' p.

Lemma forLoop_S n body (ps : list Particle) :
  forLoop (S n) body ps = body n (forLoop n body ps).
Proof.
  unfold forLoop. rewrite seq_S, fold_left_app. reflexivity.
Qed.

Lemma forLoop_assign_prefix (ps : list Particle) (k : nat) :
  (k <= length ps)%nat ->
  forLoop k (assign f) ps = map (f ps) (take k ps) ++ drop k ps.
Proof.
  induction k as [|k IH]; intros Hk.
  - unfold forLoop. simpl. rewrite drop_0. reflexivity.
  - rewrite forLoop_S, IH by lia.
    destruct (lookup_lt_is_Some_2 ps k) as [p Hp]; [lia|].
    assert (Hlen : length (map (f ps) (take k ps)) = k).
    { rewrite length_map, length_take. lia. }
    unfold assign.
    rewrite lookup_app_r by lia.
    rewrite Hlen, Nat.sub_diag, lookup_drop, Nat.add_0_r, Hp.
    rewrite insert_app_r_alt by lia.
    rewrite Hlen, Nat.sub_diag.
    rewrite (drop_S ps p k Hp). simpl.
    rewrite (take_S_r ps k p Hp), map_app. simpl.
    rewrite <- app_assoc. simpl.
    do 2 f_equal.
    apply f_reads_view.
    rewrite map_app, map_map.
    rewrite (map_ext (fun x => view (f ps x)) view) by (intros; apply f_keeps_view).
    rewrite <- map_app. f_equal.
    rewrite <- (drop_S ps p k Hp). apply take_drop.
Qed.

Lemma forLoop_assign (ps : list Particle) :
  forLoop (length ps) (assign f) ps = map (f ps) ps.
Proof.
  rewrite forLoop_assign_prefix by lia.
  rewrite firstn_all, drop_all, app_nil_r. reflexivity.
Qed.
End InPlace.

(** A loop that accumulates over the array reads it only through what its
    body reads of each element. *)
Lemma fold_left_view {A V : Type} (view : Particle -> V)
  (g : A -> Particle -> A) :
  (forall a x y, view x = view y -> g a x = g a y) ->
  forall ps ps', map view ps = map view ps' ->
  forall a, fold_left g ps a = fold_left g ps' a.
Proof.
  intros Hg ps. induction ps as [|x ps IH]; intros [|y ps'] Hmap a;
    simpl in *; try discriminate; [reflexivity|].
  injection Hmap as Hxy Hrest.
  rewrite (Hg a x y Hxy). apply IH, Hrest.
Qed.

Ltac view_eq H :=
  unfold densityView, colorGradientView, accelerationView in H;
  injection H as ?; repeat match goal with
                           | E : position _ = position _ |- _ => rewrite E; clear E
                           | E : velocity _ = velocity _ |- _ => rewrite E; clear E
                           | E : mass _ = mass _ |- _ => rewrite E; clear E
                           | E : density _ = density _ |- _ => rewrite E; clear E
                           | E : pressure _ = pressure _ |- _ => rewrite E; clear E
                           | E : colorGradient _ = colorGradient _ |- _ =>
                               rewrite E; clear E
                           end; reflexivity.

Lemma sampleDensity_view ps ps' p :
  map densityView ps = map densityView ps' ->
  sampleDensity ps p = sampleDensity ps' p.
Proof.
  intros H. unfold sampleDensity.
  apply (fold_left_view densityView); [|exact H].
  intros a x y Hxy. view_eq Hxy.
Qed.

Lemma sampleColorGradient_view ps ps' p :
  map colorGradientView ps = map colorGradientView ps' ->
  sampleColorGradient ps p = sampleColorGradient ps' p.
Proof.
  intros H. unfold sampleColorGradient.
  apply (fold_left_view colorGradientView); [|exact H].
  intros a x y Hxy. unfold colorGradientTerm. view_eq Hxy.
Qed.

Lemma netForce_view ps ps' p :
  map accelerationView ps = map accelerationView ps' ->
  netForce ps p = netForce ps' p.
Proof.
  intros H. unfold netForce, sampleSurfaceTractionForce.
  assert (samplePressureForce ps p = samplePressureForce ps' p) as ->.
  { apply (fold_left_view accelerationView); [|exact H].
    intros a x y Hxy. unfold pressureForceTerm. view_eq Hxy. }
  assert (sampleViscosityForce ps p = sampleViscosityForce ps' p) as ->.
  { apply (fold_left_view accelerationView); [|exact H].
    intros a x y Hxy. view_eq Hxy. }
  assert (sampleColorDivergence ps p = sampleColorDivergence ps' p) as ->.
  { apply (fold_left_view accelerationView); [|exact H].
    intros a x y Hxy. view_eq Hxy. }
  reflexivity.
Qed.

(** Each pass of [updateParticles], as a map over the array it started from. *)

Lemma densityPass_map ps : densityPass ps = map (densityBody ps) ps.
Proof.
  apply (forLoop_assign densityView); [reflexivity|].
  intros a b p H. unfold densityBody. f_equal. apply sampleDensity_view, H.
Qed.

Lemma pressurePass_map ps : pressurePass ps = map (pressureBody ps) ps.
Proof.
  apply (forLoop_assign (fun _ => tt)); reflexivity.
Qed.

Lemma colorGradientPass_map ps :
  colorGradientPass ps = map (colorGradientBody ps) ps.
Proof.
  apply (forLoop_assign colorGradientView); [reflexivity|].
  intros a b p H. unfold colorGradientBody. f_equal.
  apply sampleColorGradient_view, H.
Qed.

Lemma accelerationPass_map ps :
  accelerationPass ps = map (accelerationBody ps) ps.
Proof.
  apply (forLoop_assign accelerationView); [reflexivity|].
  intros a b p H. unfold accelerationBody. do 2 f_equal. apply netForce_view, H.
Qed.

Lemma integratePass_map dt ps :
  integratePass dt ps = map (integrateBody dt ps) ps.
Proof.
  apply (forLoop_assign (fun _ => tt)); reflexivity.
Qed.

Lemma densityPass_lookup ps i p :
  ps !! i = Some p -> densityPass ps !! i = Some (densityBody ps p).
Proof. intros H. rewrite densityPass_map, list_lookup_fmap, H. reflexivity. Qed.

Lemma pressurePass_lookup ps i p :
  ps !! i = Some p -> pressurePass ps !! i = Some (pressureBody ps p).
Proof. intros H. rewrite pressurePass_map, list_lookup_fmap, H. reflexivity. Qed.

Lemma colorGradientPass_lookup ps i p :
  ps !! i = Some p -> colorGradientPass ps !! i = Some (colorGradientBody ps p).
Proof.
  intros H. rewrite colorGradientPass_map, list_lookup_fmap, H. reflexivity.
Qed.

Lemma accelerationPass_lookup ps i p :
  ps !! i = Some p -> accelerationPass ps !! i = Some (accelerationBody ps p).
Proof.
  intros H. rewrite accelerationPass_map, list_lookup_fmap, H. reflexivity.
Qed.

Lemma integratePass_lookup dt ps i p :
  ps !! i = Some p -> integratePass dt ps !! i = Some (integrateBody dt ps p).
Proof.
  intros H. rewrite integratePass_map, list_lookup_fmap, H. reflexivity.
Qed.

(** The boundary handler only ever writes the velocity. *)
Lemma boundaryHandler_frame p :
  position (boundaryHandler p) = position p
  /\ acceleration (boundaryHandler p) = acceleration p
  /\ mass (boundaryHandler p) = mass p
  /\ density (boundaryHandler p) = density p
  /\ pressure (boundaryHandler p) = pressure p
  /\ colorGradient (boundaryHandler p) = colorGradient p.
Proof.
  unfold boundaryHandler. repeat case_decide; simpl; repeat split; reflexivity.
Qed.

(** The particle at index [i] after one step, from the particle [p] at index
    [i] before it: the five passes applied to [p] in order, each against the
    array left by the pass before. *)
Lemma updateParticles_lookup dt ps i p :
  ps !! i = Some p ->
  updateParticles dt ps !! i =
    Some (integrateBody dt (accelerationPass (colorGradientPass (pressurePass (densityPass ps))))
            (accelerationBody (colorGradientPass (pressurePass (densityPass ps)))
               (colorGradientBody (pressurePass (densityPass ps))
                  (pressureBody (densityPass ps) (densityBody ps p))))).
Proof.
  intros Hp. unfold updateParticles.
  apply integratePass_lookup, accelerationPass_lookup, colorGradientPass_lookup,
    pressurePass_lookup, densityPass_lookup, Hp.
Qed.

(** ** Sums over the particle array *)

Lemma fold_left_sumOver (f : Particle -> R) ps a :
  fold_left (fun acc pj => acc + f pj) ps a = a + sumOver f ps.
Proof.
  revert a. induction ps as [|x ps IH]; intros a; simpl.
  - ring.
  - rewrite IH. ring.
Qed.

Lemma sumOver_app f ps qs : sumOver f (ps ++ qs) = sumOver f ps + sumOver f qs.
Proof.
  induction ps as [|x ps IH]; simpl; [ring | rewrite IH; ring].
Qed.

Lemma sumOver_delete f ps i p :
  ps !! i = Some p -> sumOver f ps = f p + sumOver f (delete i ps).
Proof.
  intros Hp. rewrite delete_take_drop.
  rewrite <- (take_drop i ps) at 1. rewrite (drop_S ps p i Hp).
  rewrite !sumOver_app. simpl. ring.
Qed.

Lemma sampleDensity_sum ps p : sampleDensity ps p = sumOver (densityTerm p) ps.
Proof.
  unfold sampleDensity.
  rewrite (fold_left_sumOver (densityTerm p)). ring.
Qed.

Lemma integrateBody_frame dt ps p :
  acceleration (integrateBody dt ps p) = acceleration p
  /\ mass (integrateBody dt ps p) = mass p
  /\ density (integrateBody dt ps p) = density p
  /\ pressure (integrateBody dt ps p) = pressure p
  /\ colorGradient (integrateBody dt ps p) = colorGradient p.
Proof.
  unfold integrateBody. simpl.
  destruct (boundaryHandler_frame
              (set_velocity p (Vector3Add (velocity p)
                                 (Vector3Scale (acceleration p) dt))))
    as (_ & Ha & Hm & Hd & Hp & Hc).
  rewrite Ha, Hm, Hd, Hp, Hc. simpl. repeat split; reflexivity.
Qed.

(** C1: for every particle i, the density pass sets density[i] to the sum over
    all particles j, j = i included, of mass[j] * poly6(position[i] -
    position[j], sampleRadius), on the positions from before the step; that
    value is the density the particle has when the step ends. *)
Theorem density_pass_sum (dt : R) (ps : list Particle) (i : nat) (p : Particle) :
  ps !! i = Some p ->
  densityPass ps !! i = Some (set_density p (sumOver (densityTerm p) ps))
  /\ density <$> updateParticles dt ps !! i = Some (sumOver (densityTerm p) ps)
  /\ sumOver (densityTerm p) ps
     = densityTerm p p + sumOver (densityTerm p) (delete i ps).
Proof.
  intros Hp. split; [|split].
  - rewrite densityPass_map, list_lookup_fmap, Hp. simpl.
    unfold densityBody. rewrite sampleDensity_sum. reflexivity.
  - rewrite (updateParticles_lookup dt ps i p Hp).
    cbn [fmap option_fmap option_map]. f_equal.
    destruct (integrateBody_frame dt
       (accelerationPass (colorGradientPass (pressurePass (densityPass ps))))
       (accelerationBody (colorGradientPass (pressurePass (densityPass ps)))
          (colorGradientBody (pressurePass (densityPass ps))
             (pressureBody (densityPass ps) (densityBody ps p)))))
      as (_ & _ & Hd & _).
    rewrite Hd. simpl. rewrite sampleDensity_sum. reflexivity.
  - apply sumOver_delete, Hp.
Qed.

(** ** Vector and kernel facts *)

Lemma Vector3Length_nonneg v : 0 <= Vector3Length v.
Proof. apply sqrt_pos. Qed.

Lemma Vector3Length_zero : Vector3Length Vector3Zero = 0.
Proof.
  unfold Vector3Length, Vector3Zero. simpl.
  replace (0 * 0 + 0 * 0 + 0 * 0) with 0 by ring. apply sqrt_0.
Qed.

Lemma Vector3Subtract_self v : Vector3Subtract v v = Vector3Zero.
Proof.
  unfold Vector3Subtract, Vector3Zero. f_equal; ring.
Qed.

Lemma poly6_constant_pos : 0 < 315 / (64 * PI * powf sampleRadius 9).
Proof.
  unfold powf, sampleRadius.
  apply Rdiv_lt_0_compat; [lra|].
  pose proof PI_RGT_0.
  assert (0 < 12 ^ 9) by (apply pow_lt; lra).
  nra.
Qed.

Lemma W_poly6_nonneg r : 0 <= W_poly6 r sampleRadius.
Proof.
  unfold W_poly6. cbv zeta. case_decide as H; [|lra].
  destruct H as [H0 Hh].
  apply Rmult_le_pos; [apply Rlt_le, poly6_constant_pos|].
  unfold powf. apply pow_le. nra.
Qed.

Lemma W_poly6_origin_pos : 0 < W_poly6 Vector3Zero sampleRadius.
Proof.
  unfold W_poly6. cbv zeta. rewrite Vector3Length_zero.
  case_decide as H; [|unfold sampleRadius in H; lra].
  apply Rmult_lt_0_compat; [apply poly6_constant_pos|].
  unfold powf, sampleRadius. apply pow_lt. lra.
Qed.

Lemma sumOver_nonneg f ps :
  Forall (fun q => 0 <= f q) ps -> 0 <= sumOver f ps.
Proof.
  induction 1 as [|q ps Hq _ IH]; simpl; lra.
Qed.

(** The density sampled for a particle of the array is at least the
    particle's own term, which is positive when the masses are. *)
Lemma sampleDensity_lower_bound (ps : list Particle) (i : nat) (p : Particle) :
  Forall (fun q => 0 < mass q) ps ->
  ps !! i = Some p ->
  0 < mass p * W_poly6 Vector3Zero sampleRadius <= sampleDensity ps p.
Proof.
  intros Hmass Hp. split.
  - apply Rmult_lt_0_compat; [|apply W_poly6_origin_pos].
    rewrite Forall_lookup in Hmass. apply (Hmass i p Hp).
  - rewrite sampleDensity_sum, (sumOver_delete _ ps i p Hp).
    unfold densityTerm at 1. rewrite Vector3Subtract_self.
    assert (0 <= sumOver (densityTerm p) (delete i ps)); [|lra].
    apply sumOver_nonneg.
    apply Forall_forall. intros q Hq.
    apply Rmult_le_pos; [|apply W_poly6_nonneg].
    apply Rlt_le. rewrite Forall_forall in Hmass. apply Hmass.
    eapply list_elem_of_delete_inv, Hq.
Qed.

(** C2: in an array of N >= 1 particles of strictly positive mass, the density
    sampled for any particle of the array is strictly positive: the particle's
    own term mass * poly6(0, sampleRadius) is positive and no term is
    negative. *)
Theorem sampleDensity_positive (ps : list Particle) (i : nat) (p : Particle) :
  Forall (fun q => 0 < mass q) ps ->
  ps !! i = Some p ->
  0 < sampleDensity ps p
  /\ densityTerm p p = mass p * W_poly6 Vector3Zero sampleRadius
  /\ 0 < densityTerm p p <= sampleDensity ps p.
Proof.
  intros Hmass Hp.
  destruct (sampleDensity_lower_bound ps i p Hmass Hp) as [Hself Hle].
  unfold densityTerm. rewrite Vector3Subtract_self.
  repeat split; lra.
Qed.

(** ** The boundary handler and the integrator *)

Lemma boundaryHandler_reflects p :
  reflects p -> boundaryHandler p = set_velocity p (reflectedVelocity p).
Proof.
  intros [H1 H2]. unfold boundaryHandler.
  rewrite decide_True by exact H1. rewrite decide_True by exact H2. reflexivity.
Qed.

Lemma boundaryHandler_idle p : ~ reflects p -> boundaryHandler p = p.
Proof.
  intros H. unfold boundaryHandler.
  case_decide as H1; [|reflexivity].
  case_decide as H2; [|reflexivity].
  destruct H. split; assumption.
Qed.

(** C3: in the integration phase, a particle at distance >= sphereSize - 1 from
    the origin whose velocity points outward (dot(position, velocity) > 0) gets
    its velocity replaced by 0.8 times the reflection about the inward unit
    normal; the handler leaves every other particle as it is, and it never
    writes a position: the position after the pass is the old position plus
    dt times the velocity the handler left. *)
Theorem boundary_reflection (dt : R) (ps : list Particle) (i : nat)
  (p : Particle) :
  ps !! i = Some p ->
  let q := accelerated dt p in
  (reflects q -> velocity (boundaryHandler q) = reflectedVelocity q)
  /\ (~ reflects q -> boundaryHandler q = q)
  /\ position (boundaryHandler q) = position p
  /\ exists p', integratePass dt ps !! i = Some p'
       /\ velocity p' = velocity (boundaryHandler q)
       /\ position p'
          = Vector3Add (position p) (Vector3Scale (velocity p') dt).
Proof.
  intros Hp q. repeat split.
  - intros H. rewrite (boundaryHandler_reflects q H). reflexivity.
  - apply boundaryHandler_idle.
  - destruct (boundaryHandler_frame q) as (Hpos & _). rewrite Hpos. reflexivity.
  - exists (integrateBody dt ps p). split; [|split].
    + rewrite integratePass_map, list_lookup_fmap, Hp. reflexivity.
    + reflexivity.
    + unfold integrateBody. fold (accelerated dt p). fold q. simpl.
      destruct (boundaryHandler_frame q) as (Hpos & _). rewrite Hpos. reflexivity.
Qed.

Lemma updateParticles_integrate dt ps :
  updateParticles dt ps = integratePass dt (beforeIntegration ps).
Proof. reflexivity. Qed.

Lemma beforeIntegration_lookup ps i p :
  ps !! i = Some p ->
  exists q, beforeIntegration ps !! i = Some q
            /\ position q = position p /\ velocity q = velocity p
            /\ mass q = mass p.
Proof.
  intros Hp. unfold beforeIntegration.
  rewrite accelerationPass_map, list_lookup_fmap.
  rewrite colorGradientPass_map, list_lookup_fmap.
  rewrite pressurePass_map, list_lookup_fmap.
  rewrite densityPass_map, list_lookup_fmap, Hp. simpl.
  eexists. split; [reflexivity|]. simpl. repeat split; reflexivity.
Qed.

Lemma mainLoop_snoc frames t ps :
  mainLoop (frames ++ [t]) ps = updateParticles 0.04 (mainLoop frames ps).
Proof.
  unfold mainLoop. rewrite fold_left_app. reflexivity.
Qed.

Lemma mainLoop_elapsed frames frames' ps :
  length frames = length frames' -> mainLoop frames ps = mainLoop frames' ps.
Proof.
  revert frames' ps. induction frames as [|t frames IH]; intros [|t' frames'] ps H;
    simpl in *; try discriminate; [reflexivity|].
  unfold mainLoop in *. simpl. unfold frame at 2 4. apply IH. lia.
Qed.

(** C4: for every particle, one step first adds acceleration * dt to the
    velocity, then runs the boundary handler on that velocity, and only then
    adds dt times the resulting velocity to the position; the driver calls
    the step with dt = 0.04 in every frame, whatever real time the frames
    took. *)
Theorem semi_implicit_euler (dt : R) (ps : list Particle) (i : nat)
  (p : Particle) (frames frames' : list R) (elapsed : R) :
  ps !! i = Some p ->
  (exists q p',
      beforeIntegration ps !! i = Some q
      /\ position q = position p /\ velocity q = velocity p
      /\ updateParticles dt ps !! i = Some p'
      /\ acceleration p' = acceleration q
      /\ velocity (accelerated dt q)
         = Vector3Add (velocity p) (Vector3Scale (acceleration p') dt)
      /\ velocity p' = velocity (boundaryHandler (accelerated dt q))
      /\ position p'
         = Vector3Add (position p) (Vector3Scale (velocity p') dt))
  /\ frame ps elapsed = updateParticles 0.04 ps
  /\ mainLoop (frames ++ [elapsed]) ps
     = updateParticles 0.04 (mainLoop frames ps)
  /\ (length frames = length frames' -> mainLoop frames ps = mainLoop frames' ps).
Proof.
  intros Hp. split; [|split; [reflexivity|split]].
  - destruct (beforeIntegration_lookup ps i p Hp) as (q & Hq & Hpos & Hvel & _).
    exists q, (integrateBody dt (beforeIntegration ps) q).
    destruct (integrateBody_frame dt (beforeIntegration ps) q) as (Hacc & _).
    split; [exact Hq|]. split; [exact Hpos|]. split; [exact Hvel|].
    split.
    { rewrite updateParticles_integrate, integratePass_map, list_lookup_fmap, Hq.
      reflexivity. }
    split; [exact Hacc|]. split.
    { rewrite Hacc. simpl. rewrite Hvel. reflexivity. }
    split; [reflexivity|].
    unfold integrateBody. fold (accelerated dt q). simpl.
    destruct (boundaryHandler_frame (accelerated dt q)) as (Hb & _).
    rewrite Hb. simpl. rewrite Hpos. reflexivity.
  - apply mainLoop_snoc.
  - apply mainLoop_elapsed.
Qed.

Lemma pass_length (f : list Particle -> Particle -> Particle) ps :
  length (map (f ps) ps) = length ps.
Proof. apply length_map. Qed.

Lemma pass_mass (f : list Particle -> Particle -> Particle) ps :
  (forall p, mass (f ps p) = mass p) -> map mass (map (f ps) ps) = map mass ps.
Proof.
  intros H. rewrite map_map. apply map_ext. exact H.
Qed.

Lemma updateParticles_length dt ps : length (updateParticles dt ps) = length ps.
Proof.
  unfold updateParticles.
  rewrite integratePass_map, pass_length, accelerationPass_map, pass_length,
    colorGradientPass_map, pass_length, pressurePass_map, pass_length,
    densityPass_map, pass_length.
  reflexivity.
Qed.

Lemma updateParticles_mass dt ps :
  map mass (updateParticles dt ps) = map mass ps.
Proof.
  unfold updateParticles.
  rewrite integratePass_map, pass_mass
    by (intros p; apply (integrateBody_frame dt _ p)).
  rewrite accelerationPass_map, pass_mass by reflexivity.
  rewrite colorGradientPass_map, pass_mass by reflexivity.
  rewrite pressurePass_map, pass_mass by reflexivity.
  rewrite densityPass_map, pass_mass by reflexivity.
  reflexivity.
Qed.

Lemma mainLoop_length_mass frames ps :
  length (mainLoop frames ps) = length ps
  /\ map mass (mainLoop frames ps) = map mass ps.
Proof.
  induction frames as [|t frames IH] using rev_ind; [split; reflexivity|].
  rewrite mainLoop_snoc, updateParticles_length, updateParticles_mass. exact IH.
Qed.

(** C9: a step writes only density, pressure, colorGradient, acceleration,
    velocity and position; the mass of every particle and the number of
    particles are the same after the step as before, and so after any number
    of frames of the driver. *)
Theorem step_preserves_mass_and_count (dt : R) (ps : list Particle)
  (frames : list R) :
  length (updateParticles dt ps) = length ps
  /\ map mass (updateParticles dt ps) = map mass ps
  /\ length (mainLoop frames ps) = length ps
  /\ map mass (mainLoop frames ps) = map mass ps.
Proof.
  split; [apply updateParticles_length|].
  split; [apply updateParticles_mass|].
  apply mainLoop_length_mass.
Qed.

(** ** Lengths under scaling, normalisation and reflection *)

Lemma lengthSq_nonneg v : 0 <= lengthSq v.
Proof. unfold lengthSq. nra. Qed.

Lemma Vector3Length_lengthSq v : Vector3Length v = sqrt (lengthSq v).
Proof. reflexivity. Qed.

Lemma Vector3Length_sqr v : Vector3Length v * Vector3Length v = lengthSq v.
Proof. rewrite Vector3Length_lengthSq. apply sqrt_sqrt, lengthSq_nonneg. Qed.

Lemma Vector3Length_Scale v s :
  0 <= s -> Vector3Length (Vector3Scale v s) = s * Vector3Length v.
Proof.
  intros Hs. rewrite !Vector3Length_lengthSq.
  replace (lengthSq (Vector3Scale v s)) with (s * s * lengthSq v)
    by (unfold lengthSq, Vector3Scale; simpl; ring).
  rewrite sqrt_mult by (try apply lengthSq_nonneg; nra).
  rewrite sqrt_square by exact Hs. reflexivity.
Qed.

Lemma lengthSq_Negate v : lengthSq (Vector3Negate v) = lengthSq v.
Proof. unfold lengthSq, Vector3Negate. simpl. ring. Qed.

Lemma lengthSq_Normalize v :
  Vector3Length v <> 0 -> lengthSq (Vector3Normalize v) = 1.
Proof.
  intros Hv. unfold Vector3Normalize. cbv zeta.
  rewrite decide_True by exact Hv.
  pose proof (Vector3Length_sqr v) as Hsq.
  unfold lengthSq in *. simpl.
  replace (vx v * (1 / Vector3Length v) * (vx v * (1 / Vector3Length v))
           + vy v * (1 / Vector3Length v) * (vy v * (1 / Vector3Length v))
           + vz v * (1 / Vector3Length v) * (vz v * (1 / Vector3Length v)))
    with ((vx v * vx v + vy v * vy v + vz v * vz v)
          / (Vector3Length v * Vector3Length v))
    by (field; exact Hv).
  rewrite Hsq. field.
  rewrite <- Hsq. nra.
Qed.

(** Reflection about a unit normal keeps the length. *)
Lemma lengthSq_Reflect v n :
  lengthSq n = 1 -> lengthSq (Vector3Reflect v n) = lengthSq v.
Proof.
  intros Hn. unfold Vector3Reflect. cbv zeta.
  unfold lengthSq in *. simpl. unfold Vector3DotProduct.
  set (d := vx v * vx n + vy v * vy n + vz v * vz n).
  replace ((vx v - 2 * vx n * d) * (vx v - 2 * vx n * d)
           + (vy v - 2 * vy n * d) * (vy v - 2 * vy n * d)
           + (vz v - 2 * vz n * d) * (vz v - 2 * vz n * d))
    with (vx v * vx v + vy v * vy v + vz v * vz v
          - 4 * d * d
          + 4 * d * d * (vx n * vx n + vy n * vy n + vz n * vz n))
    by (unfold d; ring).
  rewrite Hn. ring.
Qed.

(** C10: whenever the boundary handler reflects a velocity, the speed after
    the reflection is 0.8 times the speed before it. *)
Theorem reflection_scales_speed (p : Particle) :
  Vector3Length (position p) >= sphereSize - 1 ->
  Vector3DotProduct (position p) (velocity p) > 0 ->
  velocity (boundaryHandler p)
  = Vector3Scale
      (Vector3Reflect (velocity p)
         (Vector3Negate (Vector3Normalize (position p)))) 0.8
  /\ Vector3Length (velocity (boundaryHandler p))
     = 0.8 * Vector3Length (velocity p).
Proof.
  intros Hfar Hout.
  rewrite (boundaryHandler_reflects p (conj Hfar Hout)). simpl.
  split; [reflexivity|].
  unfold reflectedVelocity.
  rewrite Vector3Length_Scale by lra. f_equal.
  rewrite !Vector3Length_lengthSq. f_equal.
  apply lengthSq_Reflect.
  rewrite lengthSq_Negate. apply lengthSq_Normalize.
  unfold sphereSize in Hfar. lra.
Qed.

(** ** The self term of the colour gradient *)

Lemma Vector3Add_zero_r v : Vector3Add v Vector3Zero = v.
Proof.
  destruct v as [x y z]. unfold Vector3Add, Vector3Zero. simpl. f_equal; ring.
Qed.

Lemma Vector3Scale_zero s : Vector3Scale Vector3Zero s = Vector3Zero.
Proof. unfold Vector3Scale, Vector3Zero. simpl. f_equal; ring. Qed.

Lemma Vector3Normalize_zero : Vector3Normalize Vector3Zero = Vector3Zero.
Proof.
  unfold Vector3Normalize. cbv zeta. rewrite Vector3Length_zero.
  rewrite decide_False by (intros H; apply H; reflexivity). reflexivity.
Qed.

Lemma colorGradientTerm_self p : colorGradientTerm p p = Vector3Zero.
Proof.
  unfold colorGradientTerm. cbv zeta.
  rewrite Vector3Subtract_self, Vector3Normalize_zero. apply Vector3Scale_zero.
Qed.

(** ** Pairwise pressure terms *)

Lemma Vector3Subtract_swap a b :
  Vector3Subtract a b = Vector3Negate (Vector3Subtract b a).
Proof. unfold Vector3Subtract, Vector3Negate. simpl. f_equal; ring. Qed.

Lemma Vector3Length_Negate v : Vector3Length (Vector3Negate v) = Vector3Length v.
Proof. rewrite !Vector3Length_lengthSq, lengthSq_Negate. reflexivity. Qed.

Lemma Vector3Normalize_Negate v :
  Vector3Normalize (Vector3Negate v) = Vector3Negate (Vector3Normalize v).
Proof.
  unfold Vector3Normalize. cbv zeta. rewrite Vector3Length_Negate.
  case_decide; [|reflexivity].
  unfold Vector3Negate. simpl. f_equal; ring.
Qed.

Lemma W_spiky_Gradient_Negate v h :
  W_spiky_Gradient (Vector3Negate v) h = W_spiky_Gradient v h.
Proof. unfold W_spiky_Gradient. rewrite Vector3Length_Negate. reflexivity. Qed.

Lemma Vector3Scale_Negate v s :
  Vector3Scale (Vector3Negate v) s = Vector3Negate (Vector3Scale v s).
Proof. unfold Vector3Scale, Vector3Negate. simpl. f_equal; ring. Qed.

(** Every array the program ever holds: initialised by [main] from sampled
    positions and advanced by some number of frames. *)
Lemma program_mass samples frames p :
  p ∈ mainLoop frames (initParticles samples) -> mass p = 1.
Proof.
  intros Hin.
  assert (Hm : mass p ∈ map mass (mainLoop frames (initParticles samples))).
  { apply list_elem_of_fmap. exists p. split; [reflexivity|exact Hin]. }
  destruct (mainLoop_length_mass frames (initParticles samples)) as [_ Heq].
  rewrite Heq in Hm. unfold initParticles in Hm. rewrite map_map in Hm. simpl in Hm.
  apply list_elem_of_fmap in Hm. destruct Hm as (s & Hs & _). exact Hs.
Qed.

(** For two particles of equal mass, equal density and equal pressure the
    two pressure terms are opposite. *)
Lemma pressureForceTerm_opposite (pi pj : Particle) :
  mass pi = mass pj -> density pi = density pj -> pressure pi = pressure pj ->
  pressureForceTerm pi pj = Vector3Negate (pressureForceTerm pj pi).
Proof.
  intros Hm Hd Hp. unfold pressureForceTerm. cbv zeta.
  rewrite (Vector3Subtract_swap (position pi) (position pj)).
  rewrite Vector3Normalize_Negate, W_spiky_Gradient_Negate, Vector3Scale_Negate.
  rewrite Hm, Hd, Hp. reflexivity.
Qed.

Lemma Vector3Length_x (x : R) : 0 <= x -> Vector3Length (mkVector3 x 0 0) = x.
Proof.
  intros Hx. unfold Vector3Length. simpl.
  replace (x * x + 0 * 0 + 0 * 0) with (x * x) by ring.
  apply sqrt_square, Hx.
Qed.

(** ** Division by the density *)

Lemma massless_density :
  density (densityBody [masslessParticle] masslessParticle) = 0.
Proof.
  unfold densityBody, sampleDensity, masslessParticle. simpl. lra.
Qed.

(** C6 as stated fails: whatever the threshold, the array of one massless
    particle, whose density is 0, is not rejected; the step goes through and
    divides the net force by that density. *)
Lemma no_density_guard :
  (forall eps, 0 < eps -> guardedUpdate eps 0.04 [masslessParticle] = None)
  /\ (exists q p',
        colorGradientPass (pressurePass (densityPass [masslessParticle]))
        = [q]
        /\ density q = 0
        /\ updateParticles 0.04 [masslessParticle] = [p']
        /\ acceleration p' = Vector3Scale (netForce [q] q) (1 / density q))
  /\ ~ (exists eps, 0 < eps
          /\ forall dt ps, Some (updateParticles dt ps) = guardedUpdate eps dt ps).
Proof.
  assert (Hguard : forall eps, 0 < eps ->
                     guardedUpdate eps 0.04 [masslessParticle] = None).
  { intros eps Heps. unfold guardedUpdate.
    rewrite decide_True; [reflexivity|].
    rewrite densityPass_map. simpl. apply Exists_cons. left.
    rewrite massless_density. lra. }
  split; [exact Hguard|]. split.
  - unfold updateParticles.
    rewrite integratePass_map, accelerationPass_map, colorGradientPass_map,
      pressurePass_map, densityPass_map.
    simpl. eexists. eexists.
    split; [reflexivity|]. split; [apply massless_density|].
    split; [reflexivity|].
    match goal with
    | |- acceleration (integrateBody ?d ?a ?b) = _ =>
        destruct (integrateBody_frame d a b) as (Hacc & _)
    end.
    rewrite Hacc. reflexivity.
  - intros (eps & Heps & H).
    specialize (H 0.04 [masslessParticle]).
    rewrite (Hguard eps Heps) in H. discriminate.
Qed.

Lemma program_masses_positive samples frames :
  Forall (fun q => 0 < mass q) (mainLoop frames (initParticles samples)).
Proof.
  apply Forall_forall. intros q Hq.
  rewrite (program_mass samples frames q Hq). lra.
Qed.

Lemma program_density_lower_bound samples frames i p :
  mainLoop frames (initParticles samples) !! i = Some p ->
  0 < W_poly6 Vector3Zero sampleRadius
    <= sampleDensity (mainLoop frames (initParticles samples)) p.
Proof.
  intros Hp.
  pose proof (sampleDensity_lower_bound _ i p
                (program_masses_positive samples frames) Hp) as H.
  assert (Hm : mass p = 1).
  { apply (program_mass samples frames). eapply list_elem_of_lookup_2, Hp. }
  rewrite Hm, Rmult_1_l in H. exact H.
Qed.

(** C6, as the code has it: the step has no density guard.  It never rejects
    an array: for every particle it divides the net force by the particle's
    density, whatever that density is.  In the arrays the program itself
    builds, where main gives every particle the mass 1.0, each density is at
    least poly6(0, sampleRadius), which is positive; for a threshold below
    that value the step is the guarded step. *)
Theorem density_division_unguarded (dt eps : R) (ps : list Particle) (i : nat)
  (p : Particle) (samples : list Vector3) (frames : list R) :
  ps !! i = Some p ->
  (exists q p',
      colorGradientPass (pressurePass (densityPass ps)) !! i = Some q
      /\ density q = sampleDensity ps p
      /\ updateParticles dt ps !! i = Some p'
      /\ acceleration p'
         = Vector3Scale
             (netForce (colorGradientPass (pressurePass (densityPass ps))) q)
             (1 / density q))
  /\ (ps = mainLoop frames (initParticles samples) ->
      0 < W_poly6 Vector3Zero sampleRadius <= sampleDensity ps p
      /\ (eps < W_poly6 Vector3Zero sampleRadius ->
          guardedUpdate eps dt ps = Some (updateParticles dt ps))).
Proof.
  intros Hp. split.
  - exists (colorGradientBody (pressurePass (densityPass ps))
              (pressureBody (densityPass ps) (densityBody ps p))).
    eexists. split; [|split; [|split]].
    + apply colorGradientPass_lookup, pressurePass_lookup, densityPass_lookup, Hp.
    + reflexivity.
    + apply (updateParticles_lookup dt ps i p Hp).
    + match goal with
      | |- acceleration (integrateBody ?d ?a ?b) = _ =>
          destruct (integrateBody_frame d a b) as (Hacc & _)
      end.
      rewrite Hacc. reflexivity.
  - intros ->. split.
    + apply (program_density_lower_bound samples frames i p Hp).
    + intros Heps. unfold guardedUpdate.
      rewrite decide_False; [reflexivity|].
      rewrite Exists_exists. intros (q & Hq & Hle).
      rewrite densityPass_map in Hq.
      apply list_elem_of_fmap in Hq. destruct Hq as (q0 & -> & Hq0).
      apply list_elem_of_lookup_1 in Hq0. destruct Hq0 as (k & Hk).
      pose proof (program_density_lower_bound samples frames k q0 Hk) as Hlow.
      simpl in Hle. lra.
Qed.

(** ** Kernels at and beyond the support radius *)

Lemma square_nonneg (x : R) : 0 <= x * x.
Proof. nra. Qed.

Lemma dot_le_lengths u v :
  Vector3DotProduct u v <= Vector3Length u * Vector3Length v.
Proof.
  pose proof (Vector3Length_nonneg u) as Hu.
  pose proof (Vector3Length_nonneg v) as Hv.
  pose proof (Vector3Length_sqr u) as Hu2.
  pose proof (Vector3Length_sqr v) as Hv2.
  set (a := Vector3Length u) in *. set (b := Vector3Length v) in *.
  assert (Hcs : Vector3DotProduct u v * Vector3DotProduct u v <= (a * b) * (a * b)).
  { replace (a * b * (a * b)) with ((a * a) * (b * b)) by ring.
    rewrite Hu2, Hv2. unfold lengthSq, Vector3DotProduct.
    pose proof (square_nonneg (vx u * vy v - vy u * vx v)).
    pose proof (square_nonneg (vx u * vz v - vz u * vx v)).
    pose proof (square_nonneg (vy u * vz v - vz u * vy v)).
    lra. }
  assert (0 <= a * b) by nra.
  nra.
Qed.

Lemma Vector3Length_triangle a b :
  Vector3Length a <= Vector3Length (Vector3Subtract a b) + Vector3Length b.
Proof.
  pose proof (Vector3Length_nonneg a) as Ha.
  pose proof (Vector3Length_nonneg b) as Hb.
  pose proof (Vector3Length_nonneg (Vector3Subtract a b)) as Hd.
  pose proof (Vector3Length_sqr a) as Ha2.
  pose proof (Vector3Length_sqr b) as Hb2.
  pose proof (Vector3Length_sqr (Vector3Subtract a b)) as Hd2.
  pose proof (dot_le_lengths (Vector3Subtract a b) b) as Hdot.
  assert (Hexp : lengthSq a
                 = lengthSq (Vector3Subtract a b)
                   + 2 * Vector3DotProduct (Vector3Subtract a b) b + lengthSq b).
  { unfold lengthSq, Vector3DotProduct, Vector3Subtract. simpl. ring. }
  set (x := Vector3Length a) in *. set (y := Vector3Length b) in *.
  set (d := Vector3Length (Vector3Subtract a b)) in *.
  nra.
Qed.

Lemma Vector3Length_Subtract_swap a b :
  Vector3Length (Vector3Subtract a b) = Vector3Length (Vector3Subtract b a).
Proof.
  rewrite (Vector3Subtract_swap a b). apply Vector3Length_Negate.
Qed.

(** A kernel that vanishes beyond [h] and is bounded, inside the support, by
    a multiple of the distance to the boundary is continuous there. *)
Lemma radial_bound_continuous (W : Vector3 -> R -> R) (k h : R) :
  zero_outside_support W h ->
  (forall r, Vector3Length r <= h ->
             Rabs (W r h) <= k * (h - Vector3Length r)) ->
  continuous_at_support_boundary W h.
Proof.
  intros Hout Hin r0 Hr0 eps Heps.
  assert (HW0 : W r0 h = 0).
  { pose proof (Hin r0 ltac:(lra)) as H. rewrite Hr0 in H.
    replace (k * (h - h)) with 0 in H by ring.
    pose proof (Rabs_pos (W r0 h)).
    destruct (Req_dec (W r0 h) 0) as [E|E]; [exact E|].
    pose proof (Rabs_pos_lt _ E). lra. }
  assert (HK : 0 <= Rabs (k)) by apply Rabs_pos.
  exists (eps / (Rabs (k) + 1)). split.
  { apply Rdiv_lt_0_compat; lra. }
  intros r Hr. rewrite HW0, Rminus_0_r.
  destruct (Rle_lt_dec (Vector3Length r) h) as [Hle|Hgt].
  - pose proof (Hin r Hle) as Hb.
    pose proof (Vector3Length_triangle r0 r) as Hl.
    rewrite (Vector3Length_Subtract_swap r0 r), Hr0 in Hl.
    pose proof (Rle_abs (k)) as HKa.
    assert (Hd : h - Vector3Length r < eps / (Rabs (k) + 1)) by lra.
    assert (Hmul : (h - Vector3Length r) * (Rabs (k) + 1) < eps).
    { apply (Rmult_lt_compat_r (Rabs (k) + 1)) in Hd; [|lra].
      replace (eps / (Rabs (k) + 1) * (Rabs (k) + 1)) with eps in Hd
        by (field; lra).
      exact Hd. }
    assert (0 <= h - Vector3Length r) by lra.
    nra.
  - rewrite (Hout r Hgt), Rabs_R0. exact Heps.
Qed.

Lemma Rabs_mult_le x X y Y : Rabs x <= X -> Rabs y <= Y -> Rabs (x * y) <= X * Y.
Proof.
  intros Hx Hy. rewrite Rabs_mult.
  pose proof (Rabs_pos x). pose proof (Rabs_pos y). nra.
Qed.

Lemma bound_factor c a Q B :
  0 <= a -> Rabs Q <= B -> Rabs (c * (a * Q)) <= (Rabs c * B) * a.
Proof.
  intros Ha HQ. rewrite !Rabs_mult, (Rabs_pos_eq a Ha).
  pose proof (Rabs_pos c). pose proof (Rabs_pos Q).
  assert (0 <= Rabs c * a) by nra. nra.
Qed.

(** Inside the support every kernel takes the first branch of its [if]. *)
Ltac in_support Hle :=
  cbv zeta;
  rewrite decide_True by (split; [apply Vector3Length_nonneg | exact Hle]).

Ltac outside_support Hgt :=
  cbv zeta; rewrite decide_False by (intros [_ ?]; lra); reflexivity.

Ltac abs_leaves :=
  repeat apply Rabs_mult_le; apply Rabs_le; split; nra.

Lemma W_poly6_bound r h :
  Vector3Length r <= h ->
  Rabs (W_poly6 r h)
  <= Rabs (315 / (64 * PI * powf h 9))
     * ((h * h) * (((2 * h) * (2 * h)) * (2 * h)))
     * (h - Vector3Length r).
Proof.
  intros Hle. pose proof (Vector3Length_nonneg r) as H0.
  unfold W_poly6. in_support Hle.
  set (m := Vector3Length r) in *. set (c := 315 / _).
  replace (c * powf (h * h - m * m) 3)
    with (c * ((h - m) * (((h - m) * (h - m)) * (((h + m) * (h + m)) * (h + m)))))
    by (unfold powf; ring).
  apply bound_factor; [lra|]. abs_leaves.
Qed.

Lemma W_poly6_Gradient_bound r h :
  Vector3Length r <= h ->
  Rabs (W_poly6_Gradient r h)
  <= Rabs (315 / (64 * PI * powf h 9))
     * (((6 * h) * h) * ((2 * h) * (2 * h)))
     * (h - Vector3Length r).
Proof.
  intros Hle. pose proof (Vector3Length_nonneg r) as H0.
  unfold W_poly6_Gradient. in_support Hle.
  set (m := Vector3Length r) in *. set (c := 315 / _).
  replace (c * (-2 * m) * 3 * powf (h * h - m * m) 2)
    with (c * ((h - m) * (((-6 * m) * (h - m)) * ((h + m) * (h + m)))))
    by (unfold powf; ring).
  apply bound_factor; [lra|]. abs_leaves.
Qed.

Lemma W_poly6_Laplacian_bound r h :
  Vector3Length r <= h ->
  Rabs (W_poly6_Laplacian r h)
  <= Rabs (315 / (64 * PI * powf h 9))
     * ((6 * (2 * h)) * (4 * (h * h)))
     * (h - Vector3Length r).
Proof.
  intros Hle. pose proof (Vector3Length_nonneg r) as H0.
  unfold W_poly6_Laplacian. in_support Hle.
  set (m := Vector3Length r) in *. set (c := 315 / _).
  replace (c * 6 * (h * h - m * m) * (5 * m * m - h * h))
    with (c * ((h - m) * ((6 * (h + m)) * (5 * m * m - h * h))))
    by ring.
  apply bound_factor; [lra|].
  apply Rabs_mult_le; [abs_leaves|].
  apply Rabs_le; split; nra.
Qed.

Lemma W_viscosity_Laplacian_bound r h :
  Vector3Length r <= h ->
  Rabs (W_viscosity_Laplacian r h)
  <= Rabs (45 / (PI * powf h 6)) * 1 * (h - Vector3Length r).
Proof.
  intros Hle. pose proof (Vector3Length_nonneg r) as H0.
  unfold W_viscosity_Laplacian. in_support Hle.
  set (m := Vector3Length r) in *. set (c := 45 / _).
  replace (c * (h - m)) with (c * ((h - m) * 1)) by ring.
  apply bound_factor; [lra|]. rewrite Rabs_R1. lra.
Qed.

Lemma W_spiky_bound r h :
  Vector3Length r <= h ->
  Rabs (W_spiky r h)
  <= Rabs (15 / (PI * powf h 6)) * (h * h) * (h - Vector3Length r).
Proof.
  intros Hle. pose proof (Vector3Length_nonneg r) as H0.
  unfold W_spiky. in_support Hle.
  set (m := Vector3Length r) in *. set (c := 15 / _).
  replace (c * powf (h - m) 3) with (c * ((h - m) * ((h - m) * (h - m))))
    by (unfold powf; ring).
  apply bound_factor; [lra|]. abs_leaves.
Qed.

Lemma W_spiky_Gradient_bound r h :
  Vector3Length r <= h ->
  Rabs (W_spiky_Gradient r h)
  <= Rabs (15 / (PI * powf h 6)) * (3 * h) * (h - Vector3Length r).
Proof.
  intros Hle. pose proof (Vector3Length_nonneg r) as H0.
  unfold W_spiky_Gradient. in_support Hle.
  set (m := Vector3Length r) in *. set (c := 15 / _).
  replace (c * -1 * 3 * powf (h - m) 2) with (c * ((h - m) * (-3 * (h - m))))
    by (unfold powf; ring).
  apply bound_factor; [lra|]. apply Rabs_le; split; nra.
Qed.

Lemma radial_bound_zero_at_boundary (W : Vector3 -> R -> R) (k h : R) :
  (forall r, Vector3Length r <= h ->
             Rabs (W r h) <= k * (h - Vector3Length r)) ->
  zero_at_support_boundary W h.
Proof.
  intros Hin r Hr.
  pose proof (Hin r ltac:(lra)) as H. rewrite Hr in H.
  replace (k * (h - h)) with 0 in H by ring.
  destruct (Req_dec (W r h) 0) as [E|E]; [exact E|].
  pose proof (Rabs_pos_lt _ E). lra.
Qed.

(** C7: for a positive support radius h, each of the six smoothing kernels
    returns exactly 0 for every displacement r with |r| > h, is 0 at
    |r| = h, and is continuous at every displacement of the support boundary
    |r| = h. *)
Theorem kernels_vanish_at_support_boundary (h : R) :
  0 < h ->
  Forall (fun W => zero_outside_support W h
                   /\ zero_at_support_boundary W h
                   /\ continuous_at_support_boundary W h)
         kernels.
Proof.
  intros Hh.
  assert (Hall : forall W k,
             zero_outside_support W h ->
             (forall r, Vector3Length r <= h ->
                        Rabs (W r h) <= k * (h - Vector3Length r)) ->
             zero_outside_support W h /\ zero_at_support_boundary W h
             /\ continuous_at_support_boundary W h).
  { intros W k Hout Hin. split; [exact Hout|]. split.
    - apply (radial_bound_zero_at_boundary W k h Hin).
    - apply (radial_bound_continuous W k h Hout Hin). }
  unfold kernels.
  repeat (apply List.Forall_cons); [| | | | | |apply List.Forall_nil].
  - eapply Hall; [|intros r; exact (W_poly6_bound r h)].
    intros r Hgt. unfold W_poly6. outside_support Hgt.
  - eapply Hall; [|intros r; exact (W_poly6_Gradient_bound r h)].
    intros r Hgt. unfold W_poly6_Gradient. outside_support Hgt.
  - eapply Hall; [|intros r; exact (W_poly6_Laplacian_bound r h)].
    intros r Hgt. unfold W_poly6_Laplacian. outside_support Hgt.
  - eapply Hall; [|intros r; exact (W_viscosity_Laplacian_bound r h)].
    intros r Hgt. unfold W_viscosity_Laplacian. outside_support Hgt.
  - eapply Hall; [|intros r; exact (W_spiky_bound r h)].
    intros r Hgt. unfold W_spiky. outside_support Hgt.
  - eapply Hall; [|intros r; exact (W_spiky_Gradient_bound r h)].
    intros r Hgt. unfold W_spiky_Gradient. outside_support Hgt.
Qed.

(** ** The properties at concrete arrays *)

Lemma density_pass_sum_witness :
  twoParticles !! 0%nat = Some originParticle
  /\ densityPass twoParticles !! 0%nat
     = Some (set_density originParticle
               (sumOver (densityTerm originParticle) twoParticles))
  /\ density <$> updateParticles 0.04 twoParticles !! 0%nat
     = Some (sumOver (densityTerm originParticle) twoParticles)
  /\ sumOver (densityTerm originParticle) twoParticles
     = densityTerm originParticle originParticle
       + sumOver (densityTerm originParticle) (delete 0%nat twoParticles).
Proof.
  split; [reflexivity|].
  apply (density_pass_sum 0.04 twoParticles 0 originParticle). reflexivity.
Defined.

Lemma twoParticles_masses : Forall (fun q => 0 < mass q) twoParticles.
Proof.
  unfold twoParticles, initParticles. simpl.
  repeat apply List.Forall_cons; simpl; try lra. apply List.Forall_nil.
Qed.

Lemma sampleDensity_positive_witness :
  Forall (fun q => 0 < mass q) twoParticles
  /\ twoParticles !! 0%nat = Some originParticle
  /\ 0 < sampleDensity twoParticles originParticle.
Proof.
  split; [apply twoParticles_masses|]. split; [reflexivity|].
  apply (sampleDensity_positive twoParticles 0 originParticle);
    [apply twoParticles_masses | reflexivity].
Defined.

Lemma outbound_reflects : reflects (accelerated 0.04 outboundParticle).
Proof.
  split.
  - change (position (accelerated 0.04 outboundParticle)) with (mkVector3 40 0 0).
    rewrite Vector3Length_x by lra. unfold sphereSize. lra.
  - unfold Vector3DotProduct. simpl. lra.
Qed.

Lemma boundary_reflection_witness :
  [outboundParticle] !! 0%nat = Some outboundParticle
  /\ reflects (accelerated 0.04 outboundParticle)
  /\ velocity (boundaryHandler (accelerated 0.04 outboundParticle))
     = reflectedVelocity (accelerated 0.04 outboundParticle)
  /\ position (boundaryHandler (accelerated 0.04 outboundParticle))
     = position outboundParticle.
Proof.
  split; [reflexivity|]. split; [apply outbound_reflects|].
  destruct (boundary_reflection 0.04 [outboundParticle] 0 outboundParticle
              eq_refl) as (Hrefl & _ & Hpos & _).
  split; [apply Hrefl, outbound_reflects | exact Hpos].
Defined.

Lemma semi_implicit_euler_witness :
  twoParticles !! 0%nat = Some originParticle
  /\ (exists p', updateParticles 0.04 twoParticles !! 0%nat = Some p'
        /\ position p'
           = Vector3Add (position originParticle)
                        (Vector3Scale (velocity p') 0.04))
  /\ mainLoop ([] ++ [1 / 30]) twoParticles
     = updateParticles 0.04 (mainLoop [] twoParticles).
Proof.
  split; [reflexivity|].
  destruct (semi_implicit_euler 0.04 twoParticles 0 originParticle [] []
              (1 / 30) eq_refl)
    as ((q & p' & _ & _ & _ & Hp' & _ & _ & _ & Hpos) & _ & Hloop & _).
  split; [exists p'; split; assumption | exact Hloop].
Defined.

Lemma density_division_unguarded_witness :
  twoParticles !! 0%nat = Some originParticle
  /\ twoParticles = mainLoop [] (initParticles [mkVector3 0 0 0; mkVector3 1 0 0])
  /\ 0 < W_poly6 Vector3Zero sampleRadius
       <= sampleDensity twoParticles originParticle
  /\ guardedUpdate 0 0.04 twoParticles = Some (updateParticles 0.04 twoParticles).
Proof.
  split; [reflexivity|]. split; [reflexivity|].
  destruct (density_division_unguarded 0.04 0 twoParticles 0 originParticle
              [mkVector3 0 0 0; mkVector3 1 0 0] [] eq_refl)
    as (_ & Hprogram).
  destruct (Hprogram eq_refl) as (Hbound & Hguard).
  split; [exact Hbound | apply Hguard, Hbound].
Defined.

Lemma outbound_far :
  Vector3Length (position outboundParticle) >= sphereSize - 1.
Proof.
  change (position outboundParticle) with (mkVector3 40 0 0).
  rewrite Vector3Length_x by lra. unfold sphereSize. lra.
Qed.

Lemma outbound_outward :
  Vector3DotProduct (position outboundParticle) (velocity outboundParticle) > 0.
Proof. unfold Vector3DotProduct. simpl. lra. Qed.

Lemma reflection_scales_speed_witness :
  Vector3Length (position outboundParticle) >= sphereSize - 1
  /\ Vector3DotProduct (position outboundParticle) (velocity outboundParticle) > 0
  /\ Vector3Length (velocity (boundaryHandler outboundParticle))
     = 0.8 * Vector3Length (velocity outboundParticle).
Proof.
  split; [apply outbound_far|]. split; [apply outbound_outward|].
  apply (reflection_scales_speed outboundParticle);
    [apply outbound_far | apply outbound_outward].
Defined.

(** ** The boundary handler on the containment sphere

    A particle at distance [sphereSize] moving radially outward at speed 1
    leaves the handler moving radially inward at speed 0.8; the same particle
    moving inward is left as it is. *)

Example boundaryHandler_outbound :
  velocity (boundaryHandler outboundParticle) = mkVector3 (-0.8) 0 0.
Proof.
  rewrite (boundaryHandler_reflects outboundParticle
             (conj outbound_far outbound_outward)).
  unfold reflectedVelocity, Vector3Normalize. cbv zeta.
  change (position outboundParticle) with (mkVector3 40 0 0).
  rewrite Vector3Length_x by lra.
  rewrite decide_True by lra.
  unfold Vector3Scale, Vector3Reflect, Vector3Negate, Vector3DotProduct. simpl.
  f_equal; lra.
Qed.

Example boundaryHandler_inbound :
  boundaryHandler inboundParticle = inboundParticle.
Proof.
  apply boundaryHandler_idle. intros [_ H].
  unfold Vector3DotProduct in H. simpl in H. lra.
Qed.

(** A particle alone in its array: its density is its own term. *)
Example sampleDensity_alone (p : Particle) :
  sampleDensity [p] p = mass p * W_poly6 Vector3Zero sampleRadius.
Proof.
  unfold sampleDensity. simpl. rewrite Vector3Subtract_self. ring.
Qed.

(** * Further properties of the code *)

(** ** Signs and monotonicity of the kernels *)

Lemma poly6_factor_pos h : 0 < h -> 0 < 315 / (64 * PI * powf h 9).
Proof.
  intros Hh. unfold powf. apply Rdiv_lt_0_compat; [lra|].
  pose proof PI_RGT_0. assert (0 < h ^ 9) by (apply pow_lt; lra). nra.
Qed.

Lemma spiky_factor_pos h : 0 < h -> 0 < 15 / (PI * powf h 6).
Proof.
  intros Hh. unfold powf. apply Rdiv_lt_0_compat; [lra|].
  apply Rmult_lt_0_compat; [apply PI_RGT_0 | apply pow_lt; lra].
Qed.

Lemma viscosity_factor_pos h : 0 < h -> 0 < 45 / (PI * powf h 6).
Proof.
  intros Hh. unfold powf. apply Rdiv_lt_0_compat; [lra|].
  apply Rmult_lt_0_compat; [apply PI_RGT_0 | apply pow_lt; lra].
Qed.

(** X1: for a positive support radius, W_poly6, W_spiky and
    W_viscosity_Laplacian are never negative, and the two gradient factors
    W_poly6_Gradient and W_spiky_Gradient are never positive. *)
Theorem kernel_signs (r : Vector3) (h : R) :
  0 < h ->
  0 <= W_poly6 r h
  /\ 0 <= W_spiky r h
  /\ 0 <= W_viscosity_Laplacian r h
  /\ W_poly6_Gradient r h <= 0
  /\ W_spiky_Gradient r h <= 0.
Proof.
  intros Hh.
  pose proof (poly6_factor_pos h Hh) as Hc6.
  pose proof (spiky_factor_pos h Hh) as Hcs.
  pose proof (viscosity_factor_pos h Hh) as Hcv.
  unfold W_poly6, W_spiky, W_viscosity_Laplacian, W_poly6_Gradient,
    W_spiky_Gradient. cbv zeta.
  set (m := Vector3Length r).
  case_decide as Hin; [|repeat split; lra].
  destruct Hin as [H0 Hle].
  assert (H3 : 0 <= powf (h * h - m * m) 3) by (apply pow_le; nra).
  assert (H2 : 0 <= powf (h * h - m * m) 2) by (apply pow_le; nra).
  assert (S3 : 0 <= powf (h - m) 3) by (apply pow_le; lra).
  assert (S2 : 0 <= powf (h - m) 2) by (apply pow_le; lra).
  repeat split.
  - apply Rmult_le_pos; lra.
  - apply Rmult_le_pos; lra.
  - apply Rmult_le_pos; lra.
  - assert (0 <= 315 / (64 * PI * powf h 9) * (2 * m) * 3) by
      (repeat apply Rmult_le_pos; lra).
    nra.
  - assert (0 <= 15 / (PI * powf h 6) * 3) by (apply Rmult_le_pos; lra).
    nra.
Qed.

(** X2: inside the support the Laplacian factor W_poly6_Laplacian changes
    sign: it is negative where 5 |r|^2 < h^2 and positive where
    h^2 < 5 |r|^2 and |r| < h. *)
Theorem poly6_Laplacian_sign (r : Vector3) (h : R) :
  0 < h ->
  Vector3Length r < h ->
  (5 * Vector3Length r * Vector3Length r < h * h -> W_poly6_Laplacian r h < 0)
  /\ (h * h < 5 * Vector3Length r * Vector3Length r ->
      0 < W_poly6_Laplacian r h).
Proof.
  intros Hh Hlt.
  pose proof (poly6_factor_pos h Hh) as Hc6.
  pose proof (Vector3Length_nonneg r) as H0.
  unfold W_poly6_Laplacian. cbv zeta.
  set (m := Vector3Length r) in *.
  rewrite decide_True by lra.
  assert (Hd : 0 < 315 / (64 * PI * powf h 9) * 6 * (h * h - m * m)).
  { repeat apply Rmult_lt_0_compat; try lra. nra. }
  set (D := 315 / (64 * PI * powf h 9) * 6 * (h * h - m * m)) in *.
  split; intros Hs.
  - assert (0 < D * (h * h - 5 * m * m)) by (apply Rmult_lt_0_compat; lra).
    nra.
  - apply Rmult_lt_0_compat; lra.
Qed.

(** X3: for a positive support radius, W_poly6, W_spiky and
    W_viscosity_Laplacian do not increase with the distance: a displacement at
    least as long gets a weight at most as large. *)
Theorem kernels_decrease_with_distance (r1 r2 : Vector3) (h : R) :
  0 < h ->
  Vector3Length r1 <= Vector3Length r2 ->
  W_poly6 r2 h <= W_poly6 r1 h
  /\ W_spiky r2 h <= W_spiky r1 h
  /\ W_viscosity_Laplacian r2 h <= W_viscosity_Laplacian r1 h.
Proof.
  intros Hh Hle.
  pose proof (poly6_factor_pos h Hh) as Hc6.
  pose proof (spiky_factor_pos h Hh) as Hcs.
  pose proof (viscosity_factor_pos h Hh) as Hcv.
  pose proof (Vector3Length_nonneg r1) as H1.
  pose proof (Vector3Length_nonneg r2) as H2.
  unfold W_poly6, W_spiky, W_viscosity_Laplacian. cbv zeta.
  set (m1 := Vector3Length r1) in *. set (m2 := Vector3Length r2) in *.
  destruct (decide (0 <= m2 /\ m2 <= h)) as [[_ Hin2]|Hout2].
  - destruct (decide (0 <= m1 /\ m1 <= h)) as [_|Hout1];
      [|exfalso; apply Hout1; lra].
    repeat split.
    + apply Rmult_le_compat_l; [lra|]. unfold powf.
      apply pow_incr. nra.
    + apply Rmult_le_compat_l; [lra|]. unfold powf.
      apply pow_incr. lra.
    + apply Rmult_le_compat_l; lra.
  - destruct (decide (0 <= m1 /\ m1 <= h)) as [[_ Hin1]|Hout1];
      [|repeat split; lra].
    repeat split.
    + apply Rmult_le_pos; [lra|]. apply pow_le. nra.
    + apply Rmult_le_pos; [lra|]. apply pow_le. lra.
    + apply Rmult_le_pos; lra.
Qed.

(** ** Finite support of the sums *)

Lemma fold_left_filter {A : Type} (g : A -> Particle -> A)
  (P : Particle -> Prop) `{forall x, Decision (P x)} :
  (forall a x, ~ P x -> g a x = a) ->
  forall ps a, fold_left g ps a = fold_left g (filter P ps) a.
Proof.
  intros Hg ps. induction ps as [|x ps IH]; intros a; [reflexivity|].
  rewrite filter_cons. simpl. case_decide as HP.
  - simpl. apply IH.
  - rewrite (Hg a x HP). apply IH.
Qed.

Lemma fold_left_fixed {A : Type} (g : A -> Particle -> A) ps a :
  Forall (fun x => forall b, g b x = b) ps -> fold_left g ps a = a.
Proof.
  intros H. revert a. induction H as [|x ps Hx _ IH]; intros a; [reflexivity|].
  simpl. rewrite Hx. apply IH.
Qed.

(** A sum to which only the particle at index [i] contributes. *)
Lemma fold_left_only {A : Type} (g : A -> Particle -> A) ps i p a :
  ps !! i = Some p ->
  (forall j x, ps !! j = Some x -> j <> i -> forall b, g b x = b) ->
  fold_left g ps a = g a p.
Proof.
  intros Hp Hothers.
  rewrite <- (take_drop i ps). rewrite (drop_S ps p i Hp).
  rewrite fold_left_app. simpl.
  rewrite (fold_left_fixed g (take i ps)).
  - apply fold_left_fixed.
    apply Forall_lookup. intros k x Hk.
    rewrite lookup_drop in Hk. apply (Hothers _ x Hk). lia.
  - apply Forall_lookup. intros k x Hk.
    apply lookup_take_Some in Hk. destruct Hk as [Hk Hlt].
    apply (Hothers k x Hk). lia.
Qed.

(** A sum to which the particle at index [i] does not contribute. *)
Lemma fold_left_delete {A : Type} (g : A -> Particle -> A) ps i p a :
  ps !! i = Some p ->
  (forall b, g b p = b) ->
  fold_left g ps a = fold_left g (delete i ps) a.
Proof.
  intros Hp Hg. rewrite delete_take_drop.
  rewrite <- (take_drop i ps) at 1. rewrite (drop_S ps p i Hp).
  rewrite !fold_left_app. simpl. rewrite Hg. reflexivity.
Qed.

Lemma Vector3Scale_by_zero v s : s = 0 -> Vector3Scale v s = Vector3Zero.
Proof.
  intros ->. unfold Vector3Scale, Vector3Zero. f_equal; ring.
Qed.

Lemma Vector3Subtract_zero_r v : Vector3Subtract v Vector3Zero = v.
Proof.
  destruct v as [x y z]. unfold Vector3Subtract, Vector3Zero. simpl.
  f_equal; ring.
Qed.

Lemma inSupport_swap p q :
  ~ inSupport p q ->
  Vector3Length (Vector3Subtract (position q) (position p)) > sampleRadius.
Proof.
  unfold inSupport. rewrite (Vector3Length_Subtract_swap (position q)). lra.
Qed.

Lemma W_poly6_outside r h : Vector3Length r > h -> W_poly6 r h = 0.
Proof. intros Hgt. unfold W_poly6. outside_support Hgt. Qed.

Lemma W_poly6_Gradient_outside r h :
  Vector3Length r > h -> W_poly6_Gradient r h = 0.
Proof. intros Hgt. unfold W_poly6_Gradient. outside_support Hgt. Qed.

Lemma W_poly6_Laplacian_outside r h :
  Vector3Length r > h -> W_poly6_Laplacian r h = 0.
Proof. intros Hgt. unfold W_poly6_Laplacian. outside_support Hgt. Qed.

Lemma W_viscosity_Laplacian_outside r h :
  Vector3Length r > h -> W_viscosity_Laplacian r h = 0.
Proof. intros Hgt. unfold W_viscosity_Laplacian. outside_support Hgt. Qed.

Lemma W_spiky_Gradient_outside r h :
  Vector3Length r > h -> W_spiky_Gradient r h = 0.
Proof. intros Hgt. unfold W_spiky_Gradient. outside_support Hgt. Qed.

(** What one iteration of each summing loop does with a particle [x] that is
    farther than [sampleRadius] from [p]: nothing. *)
Lemma density_step_far p x a :
  ~ inSupport p x ->
  a + mass x * W_poly6 (Vector3Subtract (position p) (position x)) sampleRadius
  = a.
Proof.
  intros H. rewrite W_poly6_outside by (unfold inSupport in H; lra). ring.
Qed.

Lemma colorGradient_step_far p x a :
  ~ inSupport p x -> Vector3Add a (colorGradientTerm p x) = a.
Proof.
  intros H. unfold colorGradientTerm. cbv zeta.
  rewrite (W_poly6_Gradient_outside _ _ (inSupport_swap p x H)).
  rewrite Vector3Scale_by_zero by ring. apply Vector3Add_zero_r.
Qed.

Lemma pressureForce_step_far p x a :
  ~ inSupport p x -> Vector3Subtract a (pressureForceTerm p x) = a.
Proof.
  intros H. unfold pressureForceTerm. cbv zeta.
  rewrite W_spiky_Gradient_outside by (unfold inSupport in H; lra).
  rewrite Vector3Scale_by_zero by ring. apply Vector3Subtract_zero_r.
Qed.

Lemma viscosityForce_step_far p x a :
  ~ inSupport p x ->
  Vector3Add a
    (Vector3Scale (Vector3Subtract (velocity x) (velocity p))
       (viscosity * mass x * (1 / density x)
        * W_viscosity_Laplacian
            (Vector3Subtract (position p) (position x)) sampleRadius))
  = a.
Proof.
  intros H.
  rewrite W_viscosity_Laplacian_outside by (unfold inSupport in H; lra).
  rewrite Vector3Scale_by_zero by ring. apply Vector3Add_zero_r.
Qed.

Lemma colorDivergence_step_far p x a :
  ~ inSupport p x ->
  Vector3Add a
    (Vector3Scale (colorGradient x)
       (mass x * (1 / density x)
        * W_poly6_Laplacian
            (Vector3Subtract (position p) (position x)) sampleRadius))
  = a.
Proof.
  intros H.
  rewrite W_poly6_Laplacian_outside by (unfold inSupport in H; lra).
  rewrite Vector3Scale_by_zero by ring. apply Vector3Add_zero_r.
Qed.

(** X4: in an array without a zero density, every sum only depends on the
    particles within sampleRadius of the sampled particle: the density, the
    colour gradient, the colour divergence, the pressure force, the viscosity
    force and therefore the net force are unchanged when all particles
    farther away are removed from the array. *)
Theorem sums_have_finite_support (ps : list Particle) (p : Particle) :
  Forall (fun q => density q <> 0) ps ->
  sampleDensity ps p = sampleDensity (filter (inSupport p) ps) p
  /\ sampleColorGradient ps p = sampleColorGradient (filter (inSupport p) ps) p
  /\ sampleColorDivergence ps p
     = sampleColorDivergence (filter (inSupport p) ps) p
  /\ samplePressureForce ps p = samplePressureForce (filter (inSupport p) ps) p
  /\ sampleViscosityForce ps p
     = sampleViscosityForce (filter (inSupport p) ps) p
  /\ netForce ps p = netForce (filter (inSupport p) ps) p.
Proof.
  intros _.
  assert (Hd : sampleDensity ps p = sampleDensity (filter (inSupport p) ps) p).
  { apply fold_left_filter. intros a x. apply density_step_far. }
  assert (Hc : sampleColorDivergence ps p
               = sampleColorDivergence (filter (inSupport p) ps) p).
  { apply fold_left_filter. intros a x. apply colorDivergence_step_far. }
  assert (Hp : samplePressureForce ps p
               = samplePressureForce (filter (inSupport p) ps) p).
  { apply fold_left_filter. intros a x. apply pressureForce_step_far. }
  assert (Hv : sampleViscosityForce ps p
               = sampleViscosityForce (filter (inSupport p) ps) p).
  { apply fold_left_filter. intros a x. apply viscosityForce_step_far. }
  split; [exact Hd|]. split.
  { apply fold_left_filter. intros a x. apply colorGradient_step_far. }
  split; [exact Hc|]. split; [exact Hp|]. split; [exact Hv|].
  unfold netForce, sampleSurfaceTractionForce. cbv zeta.
  rewrite <- Hp, <- Hv, <- Hc. reflexivity.
Qed.

(** ** Self terms and isolated particles *)

Lemma pressureForceTerm_self p : pressureForceTerm p p = Vector3Zero.
Proof.
  unfold pressureForceTerm. cbv zeta.
  rewrite Vector3Subtract_self, Vector3Normalize_zero. apply Vector3Scale_zero.
Qed.

Lemma viscosity_step_self p a s :
  Vector3Add a (Vector3Scale (Vector3Subtract (velocity p) (velocity p)) s) = a.
Proof.
  rewrite Vector3Subtract_self, Vector3Scale_zero. apply Vector3Add_zero_r.
Qed.

(** X5: in an array without a zero density, a particle exerts neither a
    pressure force nor a viscosity force on itself: for a particle of the
    array, both sums are the sums over the other particles. *)
Theorem forces_without_self_term (ps : list Particle) (i : nat) (p : Particle) :
  Forall (fun q => density q <> 0) ps ->
  ps !! i = Some p ->
  pressureForceTerm p p = Vector3Zero
  /\ samplePressureForce ps p = samplePressureForce (delete i ps) p
  /\ sampleViscosityForce ps p = sampleViscosityForce (delete i ps) p.
Proof.
  intros _ Hp. split; [apply pressureForceTerm_self|]. split.
  - apply (fold_left_delete _ ps i p _ Hp). intros b.
    rewrite pressureForceTerm_self. apply Vector3Subtract_zero_r.
  - apply (fold_left_delete _ ps i p _ Hp). intros b.
    apply viscosity_step_self.
Qed.

Lemma estimated_lookup ps i p :
  ps !! i = Some p -> estimated ps !! i = Some (estimatedParticle ps p).
Proof.
  intros Hp. unfold estimated, estimatedParticle.
  apply colorGradientPass_lookup, pressurePass_lookup, densityPass_lookup, Hp.
Qed.

Lemma pressurePass_densityPass_lookup_inv ps j x :
  pressurePass (densityPass ps) !! j = Some x ->
  exists q, ps !! j = Some q
            /\ x = pressureBody (densityPass ps) (densityBody ps q).
Proof.
  intros Hx. destruct (ps !! j) as [q|] eqn:Hq.
  - exists q. split; [reflexivity|].
    rewrite (pressurePass_lookup _ j _ (densityPass_lookup ps j q Hq)) in Hx.
    injection Hx as <-. reflexivity.
  - apply lookup_ge_None in Hq. apply lookup_lt_Some in Hx.
    rewrite pressurePass_map, length_map, densityPass_map, length_map in Hx.
    lia.
Qed.

Lemma estimated_lookup_inv ps j x :
  estimated ps !! j = Some x ->
  exists q, ps !! j = Some q /\ x = estimatedParticle ps q.
Proof.
  intros Hx. destruct (ps !! j) as [q|] eqn:Hq.
  - exists q. split; [reflexivity|].
    rewrite (estimated_lookup ps j q Hq) in Hx. injection Hx as <-. reflexivity.
  - apply lookup_ge_None in Hq. apply lookup_lt_Some in Hx.
    unfold estimated in Hx.
    rewrite colorGradientPass_map, length_map, pressurePass_map, length_map,
      densityPass_map, length_map in Hx.
    lia.
Qed.

Lemma isolated_pressurePass ps i p :
  isolated ps i p ->
  isolated (pressurePass (densityPass ps)) i
           (pressureBody (densityPass ps) (densityBody ps p)).
Proof.
  intros [Hp Hfar]. split.
  - apply pressurePass_lookup, densityPass_lookup, Hp.
  - intros j x Hx Hj.
    destruct (pressurePass_densityPass_lookup_inv ps j x Hx) as (q & Hq & ->).
    apply (Hfar j q Hq Hj).
Qed.

Lemma isolated_estimated ps i p :
  isolated ps i p -> isolated (estimated ps) i (estimatedParticle ps p).
Proof.
  intros [Hp Hfar]. split.
  - apply estimated_lookup, Hp.
  - intros j x Hx Hj.
    destruct (estimated_lookup_inv ps j x Hx) as (q & Hq & ->).
    apply (Hfar j q Hq Hj).
Qed.

Lemma sampleDensity_isolated ps i p :
  isolated ps i p ->
  sampleDensity ps p = mass p * W_poly6 Vector3Zero sampleRadius.
Proof.
  intros [Hp Hfar]. unfold sampleDensity.
  rewrite (fold_left_only _ ps i p 0 Hp).
  - rewrite Vector3Subtract_self. ring.
  - intros j x Hx Hj b. apply density_step_far, (Hfar j x Hx Hj).
Qed.

Lemma sampleColorGradient_isolated ps i p :
  isolated ps i p -> sampleColorGradient ps p = Vector3Zero.
Proof.
  intros [Hp Hfar]. unfold sampleColorGradient.
  rewrite (fold_left_only _ ps i p Vector3Zero Hp).
  - rewrite colorGradientTerm_self. apply Vector3Add_zero_r.
  - intros j x Hx Hj b. apply colorGradient_step_far, (Hfar j x Hx Hj).
Qed.

Lemma samplePressureForce_isolated ps i p :
  isolated ps i p -> samplePressureForce ps p = Vector3Zero.
Proof.
  intros [Hp Hfar]. unfold samplePressureForce.
  rewrite (fold_left_only _ ps i p Vector3Zero Hp).
  - rewrite pressureForceTerm_self. apply Vector3Subtract_zero_r.
  - intros j x Hx Hj b. apply pressureForce_step_far, (Hfar j x Hx Hj).
Qed.

Lemma sampleViscosityForce_isolated ps i p :
  isolated ps i p -> sampleViscosityForce ps p = Vector3Zero.
Proof.
  intros [Hp Hfar]. unfold sampleViscosityForce.
  rewrite (fold_left_only _ ps i p Vector3Zero Hp).
  - apply viscosity_step_self.
  - intros j x Hx Hj b. apply viscosityForce_step_far, (Hfar j x Hx Hj).
Qed.

(** X6: in an array of positive masses, a particle with no other particle
    within sampleRadius only feels gravity.  After the step its density is
    its own term
    mass * poly6(0, sampleRadius), its colour gradient is zero, and its
    acceleration is the constant force (0, -0.1 * mass, 0) divided by that
    density. *)
Theorem isolated_particle_free_fall (dt : R) (ps : list Particle) (i : nat)
  (p : Particle) :
  Forall (fun q => 0 < mass q) ps ->
  isolated ps i p ->
  exists p',
    updateParticles dt ps !! i = Some p'
    /\ density p' = mass p * W_poly6 Vector3Zero sampleRadius
    /\ colorGradient p' = Vector3Zero
    /\ netForce (estimated ps) (estimatedParticle ps p)
       = mkVector3 0 (-0.1 * mass p) 0
    /\ acceleration p'
       = Vector3Scale (mkVector3 0 (-0.1 * mass p) 0)
           (1 / (mass p * W_poly6 Vector3Zero sampleRadius)).
Proof.
  intros _ Hiso. pose proof Hiso as [Hp _].
  pose proof (updateParticles_lookup dt ps i p Hp) as Hlookup.
  fold (estimated ps) in Hlookup. fold (estimatedParticle ps p) in Hlookup.
  eexists. split; [exact Hlookup|].
  match goal with
  | |- context [integrateBody ?d ?a ?b] =>
      destruct (integrateBody_frame d a b) as (Hacc & _ & Hden & _ & Hcol)
  end.
  rewrite Hden, Hcol, Hacc.
  assert (Hdensity : density (estimatedParticle ps p)
                     = mass p * W_poly6 Vector3Zero sampleRadius).
  { simpl. apply (sampleDensity_isolated ps i p Hiso). }
  assert (Hcolor : colorGradient (estimatedParticle ps p) = Vector3Zero).
  { simpl.
    apply (sampleColorGradient_isolated _ i _ (isolated_pressurePass ps i p Hiso)). }
  assert (Hforce : netForce (estimated ps) (estimatedParticle ps p)
                   = mkVector3 0 (-0.1 * mass p) 0).
  { pose proof (isolated_estimated ps i p Hiso) as Hiso'.
    unfold netForce, sampleSurfaceTractionForce. cbv zeta.
    rewrite (samplePressureForce_isolated _ i _ Hiso').
    rewrite (sampleViscosityForce_isolated _ i _ Hiso').
    rewrite Hcolor, Vector3Normalize_zero, Vector3Scale_zero.
    rewrite !Vector3Add_zero_r.
    unfold Vector3Add, Vector3Scale, Vector3Zero. simpl. f_equal; ring. }
  split; [exact Hdensity|]. split; [exact Hcolor|]. split; [exact Hforce|].
  unfold accelerationBody. simpl acceleration.
  fold (estimated ps). rewrite Hforce.
  simpl in Hdensity. rewrite Hdensity. reflexivity.
Qed.

(** ** Bounds on density and pressure *)

Lemma W_poly6_le_origin r :
  W_poly6 r sampleRadius <= W_poly6 Vector3Zero sampleRadius.
Proof.
  pose proof poly6_constant_pos as Hc.
  pose proof (Vector3Length_nonneg r) as H0.
  unfold W_poly6. cbv zeta. rewrite Vector3Length_zero.
  set (m := Vector3Length r) in *.
  rewrite (decide_True (P := 0 <= 0 /\ 0 <= sampleRadius))
    by (unfold sampleRadius; lra).
  case_decide as Hin.
  - apply Rmult_le_compat_l; [lra|]. unfold powf. apply pow_incr.
    unfold sampleRadius in *. nra.
  - apply Rmult_le_pos; [lra|]. unfold powf, sampleRadius. apply pow_le. lra.
Qed.

Lemma W_poly6_origin_value :
  W_poly6 Vector3Zero sampleRadius = 315 / (64 * PI * 1728).
Proof.
  unfold W_poly6. cbv zeta. rewrite Vector3Length_zero.
  rewrite decide_True by (unfold sampleRadius; lra).
  unfold powf, sampleRadius. pose proof PI_RGT_0. field. lra.
Qed.

Lemma W_poly6_origin_above_rest : restDensity < W_poly6 Vector3Zero sampleRadius.
Proof.
  rewrite W_poly6_origin_value. unfold restDensity.
  pose proof PI_RGT_0 as Hpos. pose proof PI_4 as Hle.
  apply (Rmult_lt_reg_r (64 * PI * 1728)); [lra|].
  replace (315 / (64 * PI * 1728) * (64 * PI * 1728)) with 315
    by (field; lra).
  lra.
Qed.

Lemma sumOver_le f g ps :
  Forall (fun q => f q <= g q) ps -> sumOver f ps <= sumOver g ps.
Proof.
  induction 1 as [|q ps Hq _ IH]; simpl; lra.
Qed.

Lemma sumOver_scale f c ps :
  sumOver (fun q => f q * c) ps = sumOver f ps * c.
Proof.
  induction ps as [|q ps IH]; simpl; [ring | rewrite IH; ring].
Qed.

Lemma sumOver_unit_mass ps :
  Forall (fun q => mass q = 1) ps -> sumOver mass ps = INR (length ps).
Proof.
  induction 1 as [|q ps Hq _ IH]; [reflexivity|].
  cbn [length sumOver fold_right]. fold (sumOver mass ps).
  rewrite S_INR, Hq, IH. ring.
Qed.

Lemma sampleDensity_le_total_mass ps p :
  Forall (fun q => 0 <= mass q) ps ->
  sampleDensity ps p <= sumOver mass ps * W_poly6 Vector3Zero sampleRadius.
Proof.
  intros Hmass. rewrite sampleDensity_sum, <- sumOver_scale.
  apply sumOver_le. eapply Forall_impl; [exact Hmass|].
  intros q Hq. unfold densityTerm. simpl.
  apply Rmult_le_compat_l; [exact Hq | apply W_poly6_le_origin].
Qed.

(** X7: the density sampled anywhere is at most the total mass of the array
    times poly6(0, sampleRadius) when no mass is negative; in the arrays the
    program builds, where every mass is 1.0, the density of each of the N
    particles lies between poly6(0, sampleRadius) and N times that value. *)
Theorem sampleDensity_bounds (ps : list Particle) (p : Particle) (i : nat)
  (samples : list Vector3) (frames : list R) :
  (Forall (fun q => 0 <= mass q) ps ->
   sampleDensity ps p <= sumOver mass ps * W_poly6 Vector3Zero sampleRadius)
  /\ (ps = mainLoop frames (initParticles samples) ->
      ps !! i = Some p ->
      W_poly6 Vector3Zero sampleRadius <= sampleDensity ps p
      /\ sampleDensity ps p
         <= INR (length ps) * W_poly6 Vector3Zero sampleRadius).
Proof.
  split; [apply sampleDensity_le_total_mass|].
  intros -> Hp. split.
  - apply (program_density_lower_bound samples frames i p Hp).
  - rewrite <- sumOver_unit_mass.
    + apply sampleDensity_le_total_mass.
      eapply Forall_impl; [apply (program_masses_positive samples frames)|].
      intros q Hq. simpl in Hq. lra.
    + apply Forall_forall. intros q Hq.
      apply (program_mass samples frames q Hq).
Qed.

Lemma updateParticles_lookup_inv dt ps j x :
  updateParticles dt ps !! j = Some x ->
  exists q, ps !! j = Some q
            /\ x = integrateBody dt (accelerationPass (estimated ps))
                     (accelerationBody (estimated ps) (estimatedParticle ps q)).
Proof.
  intros Hx. destruct (ps !! j) as [q|] eqn:Hq.
  - exists q. split; [reflexivity|].
    rewrite (updateParticles_lookup dt ps j q Hq) in Hx.
    injection Hx as <-. reflexivity.
  - apply lookup_ge_None in Hq. apply lookup_lt_Some in Hx.
    rewrite updateParticles_length in Hx. lia.
Qed.

(** X8: every array a step returns satisfies the equation of state: each
    particle's pressure is gasConstant * (density - restDensity) for the
    density the same step gave it. *)
Theorem step_establishes_equation_of_state (dt : R) (ps : list Particle) :
  Forall (fun p' => pressure p' = gasConstant * (density p' - restDensity))
         (updateParticles dt ps).
Proof.
  apply Forall_lookup. intros j x Hx.
  destruct (updateParticles_lookup_inv dt ps j x Hx) as (q & Hq & ->).
  match goal with
  | |- context [integrateBody ?d ?a ?b] =>
      destruct (integrateBody_frame d a b) as (_ & _ & Hden & Hpre & _)
  end.
  rewrite Hden, Hpre. reflexivity.
Qed.

(** X9: in the program the pressure is never negative or zero: after any
    frame, every particle's density is at least poly6(0, sampleRadius), which
    exceeds restDensity, so its pressure is at least
    gasConstant * (poly6(0, sampleRadius) - restDensity) > 0. *)
Theorem program_pressure_positive (samples : list Vector3) (frames : list R)
  (elapsed : R) :
  Forall (fun p' =>
            0 < gasConstant * (W_poly6 Vector3Zero sampleRadius - restDensity)
              <= pressure p')
         (mainLoop (frames ++ [elapsed]) (initParticles samples)).
Proof.
  rewrite mainLoop_snoc.
  apply Forall_lookup. intros j x Hx.
  destruct (updateParticles_lookup_inv _ _ j x Hx) as (q & Hq & ->).
  match goal with
  | |- context [integrateBody ?d ?a ?b] =>
      destruct (integrateBody_frame d a b) as (_ & _ & _ & Hpre & _)
  end.
  rewrite Hpre. simpl. unfold samplePressure. simpl.
  pose proof (program_density_lower_bound samples frames j q Hq) as [_ Hlow].
  pose proof W_poly6_origin_above_rest as Hrest.
  unfold gasConstant. lra.
Qed.

(** ** Direction of the pressure force *)

Lemma W_spiky_Gradient_nonpos r : W_spiky_Gradient r sampleRadius <= 0.
Proof.
  assert (Hh : 0 < sampleRadius) by (unfold sampleRadius; lra).
  pose proof (spiky_factor_pos sampleRadius Hh) as Hc.
  unfold W_spiky_Gradient. cbv zeta. case_decide as Hin; [|lra].
  destruct Hin as [H0 Hle].
  assert (0 <= powf (sampleRadius - Vector3Length r) 2) by (apply pow_le; lra).
  assert (0 <= 15 / (PI * powf sampleRadius 6) * 3) by (apply Rmult_le_pos; lra).
  nra.
Qed.

Lemma dot_Normalize_nonneg r : 0 <= Vector3DotProduct (Vector3Normalize r) r.
Proof.
  unfold Vector3Normalize. cbv zeta. case_decide as Hlen.
  - pose proof (Vector3Length_nonneg r) as H0.
    assert (Hpos : 0 < Vector3Length r) by lra.
    pose proof (lengthSq_nonneg r) as Hsq. unfold lengthSq in Hsq.
    unfold Vector3DotProduct. simpl.
    replace (vx r * (1 / Vector3Length r) * vx r
             + vy r * (1 / Vector3Length r) * vy r
             + vz r * (1 / Vector3Length r) * vz r)
      with ((vx r * vx r + vy r * vy r + vz r * vz r) * / Vector3Length r)
      by (field; lra).
    apply Rmult_le_pos; [exact Hsq|]. apply Rlt_le, Rinv_0_lt_compat, Hpos.
  - apply (lengthSq_nonneg r).
Qed.

(** X10: between two particles whose pressures do not sum to a negative
    value, the pressure force is repulsive: what particle q contributes to
    samplePressureForce(p) has a non-negative component along the
    displacement from q to p (q of non-negative mass and positive density). *)
Theorem pressure_force_repels (p q : Particle) :
  0 <= mass q ->
  0 < density q ->
  0 <= pressure p + pressure q ->
  samplePressureForce [q] p = Vector3Negate (pressureForceTerm p q)
  /\ 0 <= Vector3DotProduct (samplePressureForce [q] p)
            (Vector3Subtract (position p) (position q)).
Proof.
  intros Hm Hd Hpr.
  assert (Hone : samplePressureForce [q] p = Vector3Negate (pressureForceTerm p q)).
  { unfold samplePressureForce. simpl.
    unfold Vector3Subtract, Vector3Negate, Vector3Zero. simpl. f_equal; ring. }
  split; [exact Hone|]. rewrite Hone.
  unfold pressureForceTerm. cbv zeta.
  set (r := Vector3Subtract (position p) (position q)).
  pose proof (dot_Normalize_nonneg r) as Hdot.
  pose proof (W_spiky_Gradient_nonpos r) as Hw.
  assert (Hk : 0 <= mass q * (pressure p + pressure q) / (2 * density q)).
  { apply Rmult_le_pos; [apply Rmult_le_pos; lra|].
    apply Rlt_le, Rinv_0_lt_compat. lra. }
  set (k := mass q * (pressure p + pressure q) / (2 * density q)) in *.
  set (w := W_spiky_Gradient r sampleRadius) in *.
  set (n := Vector3Normalize r) in *.
  clearbody n w k r.
  unfold Vector3DotProduct in *. unfold Vector3Negate, Vector3Scale. simpl.
  replace (- (vx n * (k * w)) * vx r + - (vy n * (k * w)) * vy r
           + - (vz n * (k * w)) * vz r)
    with ((vx n * vx r + vy n * vy r + vz n * vz r) * (k * - w)) by ring.
  apply Rmult_le_pos; [exact Hdot|]. apply Rmult_le_pos; lra.
Qed.

(** ** More on the boundary handler *)

Lemma reflects_far p : reflects p -> Vector3Length (position p) <> 0.
Proof. intros [Hfar _]. unfold sphereSize in Hfar. lra. Qed.

Lemma reflectedVelocity_length p :
  Vector3Length (position p) <> 0 ->
  Vector3Length (reflectedVelocity p) = 0.8 * Vector3Length (velocity p).
Proof.
  intros Hlen. unfold reflectedVelocity.
  rewrite Vector3Length_Scale by lra. f_equal.
  rewrite !Vector3Length_lengthSq. f_equal.
  apply lengthSq_Reflect.
  rewrite lengthSq_Negate. apply lengthSq_Normalize, Hlen.
Qed.

(** X13: the boundary handler never makes a particle faster: the speed it
    leaves is 0.8 times the speed it found when it reflects and the same
    speed otherwise. *)
Theorem boundaryHandler_never_speeds_up (p : Particle) :
  Vector3Length (velocity (boundaryHandler p)) <= Vector3Length (velocity p).
Proof.
  pose proof (Vector3Length_nonneg (velocity p)) as H0.
  destruct (decide (Vector3Length (position p) >= sphereSize - 1
                    /\ Vector3DotProduct (position p) (velocity p) > 0))
    as [Hr|Hn].
  - rewrite (boundaryHandler_reflects p Hr). simpl.
    rewrite (reflectedVelocity_length p (reflects_far p Hr)). lra.
  - rewrite (boundaryHandler_idle p Hn). lra.
Qed.

(** ** The step recomputes the derived fields *)

Lemma map_view_pass {V W : Type} (v : Particle -> V) (w : Particle -> W)
  (F G : Particle -> Particle) ps ps' :
  (forall p p', v p = v p' -> w (F p) = w (G p')) ->
  map v ps = map v ps' ->
  map w (map F ps) = map w (map G ps').
Proof.
  intros HFG. revert ps'.
  induction ps as [|p ps IH]; intros [|p' ps'] H; simpl in *;
    try discriminate; [reflexivity|].
  injection H as Hp Hps. f_equal; [apply HFG, Hp | apply IH, Hps].
Qed.

Lemma map_view_weaken {V W : Type} (v : Particle -> V) (w : Particle -> W)
  ps ps' :
  (forall p p', v p = v p' -> w p = w p') ->
  map v ps = map v ps' -> map w ps = map w ps'.
Proof.
  intros Hvw H.
  rewrite <- (map_id ps), <- (map_id ps').
  apply (map_view_pass v w (fun p => p) (fun p => p)); assumption.
Qed.

Ltac fields_eq :=
  repeat match goal with
         | p : Particle |- _ => destruct p
         end;
  unfold core, coreDensity, coreDensityPressure, densityView,
    colorGradientView, accelerationView in *;
  simpl in *;
  repeat match goal with
         | H : (_, _) = (_, _) |- _ => injection H as ? ?
         end;
  subst.

Lemma densityPass_core ps ps' :
  map core ps = map core ps' ->
  map coreDensity (densityPass ps) = map coreDensity (densityPass ps').
Proof.
  intros H. rewrite !densityPass_map.
  apply (map_view_pass core); [|exact H].
  intros p p' Hp.
  assert (Hs : sampleDensity ps p = sampleDensity ps' p').
  { rewrite (sampleDensity_view ps ps' p).
    - fields_eq. reflexivity.
    - apply (map_view_weaken core); [|exact H]. intros; fields_eq; reflexivity. }
  unfold densityBody. rewrite Hs. fields_eq. reflexivity.
Qed.

Lemma pressurePass_core ps ps' :
  map coreDensity ps = map coreDensity ps' ->
  map coreDensityPressure (pressurePass ps)
  = map coreDensityPressure (pressurePass ps').
Proof.
  intros H. rewrite !pressurePass_map.
  apply (map_view_pass coreDensity); [|exact H].
  intros p p' Hp. unfold pressureBody, samplePressure. fields_eq. reflexivity.
Qed.

Lemma colorGradientPass_core ps ps' :
  map coreDensityPressure ps = map coreDensityPressure ps' ->
  map accelerationView (colorGradientPass ps)
  = map accelerationView (colorGradientPass ps').
Proof.
  intros H. rewrite !colorGradientPass_map.
  apply (map_view_pass coreDensityPressure); [|exact H].
  intros p p' Hp.
  assert (Hs : sampleColorGradient ps p = sampleColorGradient ps' p').
  { rewrite (sampleColorGradient_view ps ps' p).
    - fields_eq. reflexivity.
    - apply (map_view_weaken coreDensityPressure); [|exact H].
      intros; fields_eq; reflexivity. }
  unfold colorGradientBody. rewrite Hs. fields_eq. reflexivity.
Qed.

Lemma accelerationPass_core ps ps' :
  map accelerationView ps = map accelerationView ps' ->
  accelerationPass ps = accelerationPass ps'.
Proof.
  intros H. rewrite !accelerationPass_map.
  rewrite <- (map_id (map (accelerationBody ps) ps)).
  rewrite <- (map_id (map (accelerationBody ps') ps')).
  apply (map_view_pass accelerationView); [|exact H].
  intros p p' Hp.
  assert (Hs : netForce ps p = netForce ps' p').
  { rewrite (netForce_view ps ps' p H). fields_eq. reflexivity. }
  unfold accelerationBody. rewrite Hs. fields_eq. reflexivity.
Qed.

(** X14: a step recomputes density, pressure, colour gradient and
    acceleration from scratch: two arrays that agree on every particle's
    position, velocity and mass are stepped to the same array, whatever their
    derived fields held before. *)
Theorem step_depends_on_core_only (dt : R) (ps ps' : list Particle) :
  map core ps = map core ps' ->
  updateParticles dt ps = updateParticles dt ps'.
Proof.
  intros H. unfold updateParticles. cbv zeta. f_equal.
  apply accelerationPass_core, colorGradientPass_core, pressurePass_core,
    densityPass_core, H.
Qed.

(** X15: with a time step of 0 no particle of an array of positive masses
    moves: the step still recomputes the derived fields, but it returns every
    position as it was. *)
Theorem zero_time_step_keeps_positions (ps : list Particle) :
  Forall (fun q => 0 < mass q) ps ->
  map position (updateParticles 0 ps) = map position ps.
Proof.
  intros _.
  assert (Hint : forall A q, position (integrateBody 0 A q) = position q).
  { intros A q. unfold integrateBody. simpl.
    fold (accelerated 0 q).
    destruct (boundaryHandler_frame (accelerated 0 q)) as (Hpos & _).
    rewrite Hpos. simpl.
    destruct (position q) as [x y z]. unfold Vector3Add, Vector3Scale. simpl.
    f_equal; ring. }
  unfold updateParticles. cbv zeta.
  rewrite integratePass_map, map_map.
  rewrite (map_ext _ position) by (intros q; apply Hint).
  rewrite accelerationPass_map, map_map.
  rewrite colorGradientPass_map, map_map.
  rewrite pressurePass_map, map_map.
  rewrite densityPass_map, map_map.
  reflexivity.
Qed.

(** ** Sums over a mapped array *)

Lemma fold_left_map_ext {A : Type} (g g' : A -> Particle -> A)
  (f : Particle -> Particle) ps a :
  (forall b x, g b (f x) = g' b x) ->
  fold_left g (map f ps) a = fold_left g' ps a.
Proof.
  intros H. revert a. induction ps as [|x ps IH]; intros a; [reflexivity|].
  simpl. rewrite H. apply IH.
Qed.

(** X16: in an array without a zero density whose particles all move with
    the velocity of the sampled particle, the viscosity force is the zero
    vector; so there is none in the first frame, where main has set every
    velocity to zero. *)
Theorem viscosity_force_uniform_velocity (ps : list Particle) (p : Particle) :
  Forall (fun q => density q <> 0) ps ->
  Forall (fun q => velocity q = velocity p) ps ->
  sampleViscosityForce ps p = Vector3Zero.
Proof.
  intros _ Hsame. unfold sampleViscosityForce. apply fold_left_fixed.
  eapply Forall_impl; [exact Hsame|].
  intros q Hq b. simpl in Hq. rewrite Hq. apply viscosity_step_self.
Qed.



(** ** Order of the phases *)

(** X19: the colour gradient a step gives a particle is computed from the
    densities of the same step, never from the ones the array held before:
    it is the sum, over the particles pj of the array before the step, of the
    unit vector towards pj scaled by
    mass[j] / sampleDensity(pj) * poly6_gradient. *)
Theorem colorGradient_uses_fresh_density (dt : R) (ps : list Particle)
  (i : nat) (p : Particle) :
  ps !! i = Some p ->
  colorGradient <$> updateParticles dt ps !! i
  = Some (fold_left
            (fun acc pj =>
               Vector3Add acc
                 (Vector3Scale
                    (Vector3Normalize
                       (Vector3Subtract (position pj) (position p)))
                    (mass pj * (1 / sampleDensity ps pj)
                     * W_poly6_Gradient
                         (Vector3Subtract (position pj) (position p))
                         sampleRadius)))
            ps Vector3Zero).
Proof.
  intros Hp. rewrite (updateParticles_lookup dt ps i p Hp).
  cbn [fmap option_fmap option_map]. f_equal.
  match goal with
  | |- context [integrateBody ?d ?a ?b] =>
      destruct (integrateBody_frame d a b) as (_ & _ & _ & _ & Hcol)
  end.
  rewrite Hcol. simpl.
  rewrite pressurePass_map, densityPass_map, map_map.
  unfold sampleColorGradient. apply fold_left_map_ext.
  intros b x. reflexivity.
Qed.

(** ** The colour field *)

Lemma sampleColor_sum ps p :
  sampleColor ps p
  = sumOver (fun pj => mass pj * (1 / density pj)
                       * W_poly6 (Vector3Subtract (position p) (position pj))
                                 sampleRadius) ps.
Proof.
  unfold sampleColor.
  rewrite (fold_left_sumOver
             (fun pj => mass pj * (1 / density pj)
                        * W_poly6 (Vector3Subtract (position p) (position pj))
                                  sampleRadius)).
  ring.
Qed.

(** X20: the colour field sampled at a particle of an array of positive
    masses and positive densities is at least the particle's own term
    mass / density * poly6(0, sampleRadius), which is positive; and in an
    array where every particle has the same density rho, the colour field is
    the sampled density divided by rho. *)
Theorem sampleColor_positive (ps : list Particle) (i : nat) (p : Particle)
  (rho : R) :
  Forall (fun q => 0 < mass q /\ 0 < density q) ps ->
  ps !! i = Some p ->
  0 < mass p * (1 / density p) * W_poly6 Vector3Zero sampleRadius
    <= sampleColor ps p
  /\ (Forall (fun q => density q = rho) ps ->
      sampleColor ps p = sampleDensity ps p * (1 / rho)).
Proof.
  intros Hpos Hp.
  assert (Hweight : forall q, q ∈ ps -> 0 < mass q * (1 / density q)).
  { intros q Hq. rewrite Forall_forall in Hpos. destruct (Hpos q Hq) as [Hm Hd].
    apply Rmult_lt_0_compat; [exact Hm|].
    apply Rdiv_lt_0_compat; lra. }
  split; [split|].
  - apply Rmult_lt_0_compat; [|apply W_poly6_origin_pos].
    apply Hweight. eapply list_elem_of_lookup_2, Hp.
  - rewrite sampleColor_sum, (sumOver_delete _ ps i p Hp).
    rewrite Vector3Subtract_self.
    match goal with
    | |- _ <= _ + sumOver ?f ?l => assert (0 <= sumOver f l); [|lra]
    end.
    apply sumOver_nonneg. apply Forall_forall. intros q Hq.
    apply Rmult_le_pos; [|apply W_poly6_nonneg].
    apply Rlt_le, Hweight. eapply list_elem_of_delete_inv, Hq.
  - intros Hrho. rewrite sampleColor_sum, sampleDensity_sum, <- sumOver_scale.
    clear Hpos Hp Hweight.
    induction Hrho as [|q ps Hq _ IH]; [reflexivity|].
    simpl. rewrite IH, Hq. unfold densityTerm. ring.
Qed.

(** ** Frame capture *)

Lemma forLoopM_S {S : Type} n (body : nat -> S -> option S) s :
  forLoopM (S:=S) (Datatypes.S n) body s
  = match forLoopM n body s with Some t => body n t | None => None end.
Proof.
  unfold forLoopM. rewrite seq_S, fold_left_app. reflexivity.
Qed.

(** If a fallible loop went through, every one of its iterations did. *)
Lemma forLoopM_Some_inv {S : Type} n (body : nat -> S -> option S) s s' :
  forLoopM n body s = Some s' ->
  forall i, (i < n)%nat ->
  exists t t', forLoopM i body s = Some t /\ body i t = Some t'.
Proof.
  revert s'. induction n as [|n IH]; intros s' Hn i Hi; [lia|].
  rewrite forLoopM_S in Hn.
  destruct (forLoopM n body s) as [t|] eqn:Ht; [|discriminate].
  destruct (decide (i = n)) as [->|Hne].
  - exists t, s'. split; [exact Ht | exact Hn].
  - apply (IH t eq_refl i). lia.
Qed.

Lemma copy_row_prefix width pixels fill y mat row j :
  mat !! y = Some row ->
  length row = width ->
  (j <= width)%nat ->
  (forall x, (x < j)%nat -> is_Some (pixels !! (y * width + x)%nat)) ->
  forLoopM j (copyPixel width pixels y) mat
  = Some (<[y := map (copiedCell width pixels fill y) (seq 0 j) ++ drop j row]>
            mat).
Proof.
  intros Hrow Hlen. induction j as [|j IH]; intros Hj Hpix.
  - unfold forLoopM. simpl. rewrite drop_0, list_insert_id by exact Hrow.
    reflexivity.
  - rewrite forLoopM_S, IH by (try lia; intros x Hx; apply Hpix; lia).
    destruct (Hpix j ltac:(lia)) as [c Hc].
    unfold copyPixel. rewrite Hc. unfold matSet.
    pose proof (lookup_lt_Some _ _ _ Hrow) as Hy.
    rewrite list_lookup_insert_eq by exact Hy.
    assert (Hpre : length (map (copiedCell width pixels fill y) (seq 0 j)) = j).
    { rewrite length_map, length_seq. reflexivity. }
    rewrite decide_True by (rewrite length_app, Hpre, length_drop; lia).
    f_equal. rewrite list_insert_insert_eq. f_equal.
    destruct (lookup_lt_is_Some_2 row j) as [v0 Hv0]; [lia|].
    rewrite insert_app_r_alt by lia.
    rewrite Hpre, Nat.sub_diag, (drop_S row v0 j Hv0).
    rewrite seq_S, map_app, <- app_assoc.
    cbn [map app insert list_insert Nat.add].
    assert (E : copiedCell width pixels fill y j = (cb c, cg c, cr c, ca c))
      by (unfold copiedCell; rewrite Hc; reflexivity).
    rewrite E. reflexivity.
Qed.

Lemma newMat_lookup rows cols fill y :
  (y < rows)%nat -> newMat rows cols fill !! y = Some (map (fill y) (seq 0 cols)).
Proof.
  intros Hy. unfold newMat.
  rewrite list_lookup_fmap, lookup_seq_lt by exact Hy. reflexivity.
Qed.

Lemma copy_rows_prefix width height pixels fill k :
  (k <= height)%nat ->
  (forall y x, (y < k)%nat -> (x < width)%nat ->
               is_Some (pixels !! (y * width + x)%nat)) ->
  forLoopM k (fun y mat => forLoopM width (copyPixel width pixels y) mat)
    (newMat height width fill)
  = Some (map (fun y => map (copiedCell width pixels fill y) (seq 0 width))
              (seq 0 k)
          ++ drop k (newMat height width fill)).
Proof.
  induction k as [|k IH]; intros Hk Hpix.
  - unfold forLoopM. simpl. rewrite drop_0. reflexivity.
  - rewrite forLoopM_S, IH by (try lia; intros y x Hy Hx; apply Hpix; lia).
    set (done := map (fun y => map (copiedCell width pixels fill y) (seq 0 width))
                     (seq 0 k)).
    assert (Hdone : length done = k).
    { unfold done. rewrite length_map, length_seq. reflexivity. }
    pose proof (newMat_lookup height width fill k ltac:(lia)) as Hrow.
    rewrite (copy_row_prefix width pixels fill k _ (map (fill k) (seq 0 width))).
    + f_equal. rewrite insert_app_r_alt by lia.
      rewrite Hdone, Nat.sub_diag, (drop_S _ _ k Hrow).
      rewrite drop_ge by (rewrite length_map, length_seq; lia).
      rewrite app_nil_r.
      unfold done. rewrite seq_S, map_app, <- app_assoc. reflexivity.
    + rewrite lookup_app_r by lia.
      rewrite Hdone, Nat.sub_diag, lookup_drop, Nat.add_0_r. exact Hrow.
    + rewrite length_map, length_seq. reflexivity.
    + lia.
    + intros x Hx. apply Hpix; lia.
Qed.

Lemma pixel_in_bounds width height (pixels : list Color) y x :
  (width * height <= length pixels)%nat ->
  (y < height)%nat -> (x < width)%nat ->
  is_Some (pixels !! (y * width + x)%nat).
Proof.
  intros Hlen Hy Hx. apply lookup_lt_is_Some_2. nia.
Qed.

Lemma cvtColor_nonempty (mat : list (list Vec4b)) row rest v vs :
  mat = row :: rest -> row = v :: vs ->
  cvtColor_BGRA2BGR mat
  = Some (map (map (fun v : Vec4b => let '(b, g, r, _) := v in (b, g, r))) mat).
Proof.
  intros -> ->. reflexivity.
Qed.

Lemma textureToMat_closed_form width height pixels fill :
  (0 < width)%nat -> (0 < height)%nat ->
  (width * height <= length pixels)%nat ->
  textureToMat width height pixels fill
  = Some (map (fun y =>
                 map (fun x => from_option bgr (Byte.x00, Byte.x00, Byte.x00)
                                 (pixels !! (y * width + x)%nat))
                     (seq 0 width))
              (seq 0 height)).
Proof.
  intros Hw Hh Hlen. unfold textureToMat. cbv zeta.
  rewrite (copy_rows_prefix width height pixels fill height)
    by (try lia; intros y x Hy Hx; apply (pixel_in_bounds width height); assumption).
  rewrite drop_ge by (unfold newMat; rewrite length_map, length_seq; lia).
  rewrite app_nil_r.
  destruct height as [|h']; [lia|]. destruct width as [|w']; [lia|].
  rewrite (cvtColor_nonempty _
             (map (copiedCell (S w') pixels fill 0%nat) (seq 0 (S w')))
             (map (fun y => map (copiedCell (S w') pixels fill y) (seq 0 (S w')))
                  (seq 1 h'))
             (copiedCell (S w') pixels fill 0%nat 0%nat)
             (map (copiedCell (S w') pixels fill 0%nat) (seq 1 w')))
    by reflexivity.
  f_equal.
  rewrite map_map. apply map_ext_in. intros y Hy. apply in_seq in Hy.
  rewrite map_map. apply map_ext_in. intros x Hx. apply in_seq in Hx.
  destruct (pixel_in_bounds (S w') (S h') pixels y x Hlen) as [c Hc]; [lia..|].
  unfold copiedCell. rewrite Hc. reflexivity.
Qed.

(** X21: for a non-empty image (0 < width, 0 < height, width * height within
    the range of an int) and a pixel array that holds at least
    width * height colours, textureToMat succeeds without reading or writing
    out of bounds and returns a matrix of height rows of width cells; the
    cell of row y and column x holds the blue, green and red channels, in
    this order, of pixel y * width + x, the alpha channel being dropped; the
    result does not depend on what the freshly allocated matrix held. *)
Theorem textureToMat_copies_pixels (width height : nat) (pixels : list Color)
  (fill : nat -> nat -> Vec4b) :
  (0 < width)%nat ->
  (0 < height)%nat ->
  (Z.of_nat width * Z.of_nat height <= 2147483647)%Z ->
  (width * height <= length pixels)%nat ->
  exists m,
    textureToMat width height pixels fill = Some m
    /\ length m = height
    /\ (forall y row, m !! y = Some row -> length row = width)
    /\ (forall y x, (y < height)%nat -> (x < width)%nat ->
          exists c row,
            pixels !! (y * width + x)%nat = Some c
            /\ m !! y = Some row
            /\ row !! x = Some (cb c, cg c, cr c))
    /\ (forall fill', textureToMat width height pixels fill' = Some m).
Proof.
  intros Hw Hh _ Hlen. eexists.
  split; [apply (textureToMat_closed_form width height pixels fill Hw Hh Hlen)|].
  split; [rewrite length_map, length_seq; reflexivity|].
  split.
  { intros y row Hrow. rewrite list_lookup_fmap in Hrow.
    destruct (seq 0 height !! y) as [y'|]; [|discriminate].
    injection Hrow as <-. rewrite length_map, length_seq. reflexivity. }
  split.
  { intros y x Hy Hx.
    destruct (pixel_in_bounds width height pixels y x Hlen Hy Hx) as [c Hc].
    eexists c, _. split; [exact Hc|]. split.
    - rewrite list_lookup_fmap, lookup_seq_lt by exact Hy. reflexivity.
    - rewrite list_lookup_fmap, lookup_seq_lt by exact Hx. simpl.
      rewrite Hc. reflexivity. }
  intros fill'.
  apply (textureToMat_closed_form width height pixels fill' Hw Hh Hlen).
Qed.

(** X22: the loops of textureToMat read the pixel array up to index
    width * height - 1: on a non-empty image whose pixel array is shorter
    than width * height the read of line 51 leaves the array, and the model
    has no result. *)
Theorem textureToMat_short_array (width height : nat) (pixels : list Color)
  (fill : nat -> nat -> Vec4b) :
  (0 < width)%nat ->
  (length pixels < width * height)%nat ->
  textureToMat width height pixels fill = None.
Proof.
  intros Hw Hshort. unfold textureToMat. cbv zeta.
  destruct (forLoopM height _ _) as [mat|] eqn:Hloop; [exfalso|reflexivity].
  assert (Hh : (0 < height)%nat) by nia.
  destruct (forLoopM_Some_inv _ _ _ _ Hloop (height - 1)%nat ltac:(lia))
    as (t & t' & _ & Hrow).
  destruct (forLoopM_Some_inv _ _ _ _ Hrow (width - 1)%nat ltac:(lia))
    as (u & u' & _ & Hcell).
  unfold copyPixel in Hcell.
  destruct (pixels !! ((height - 1) * width + (width - 1))%nat) as [c|] eqn:Hc;
    [|discriminate].
  apply lookup_lt_Some in Hc. nia.
Qed.

(** ** Direction of the surface traction and of the viscosity force *)

Lemma sampleRadius_pos : 0 < sampleRadius.
Proof. unfold sampleRadius. lra. Qed.

Lemma Vector3Length_Normalize v :
  Vector3Length v <> 0 -> Vector3Length (Vector3Normalize v) = 1.
Proof.
  intros Hv. rewrite Vector3Length_lengthSq, (lengthSq_Normalize v Hv).
  apply sqrt_1.
Qed.

Lemma Vector3Length_Scale_neg v s :
  0 <= s -> Vector3Length (Vector3Scale v (- s)) = s * Vector3Length v.
Proof.
  intros Hs. rewrite <- (Vector3Length_Scale v s Hs).
  rewrite <- (Vector3Length_Negate (Vector3Scale v s)). f_equal.
  unfold Vector3Scale, Vector3Negate. simpl. f_equal; ring.
Qed.

(** X23: in an array without a zero density, the surface traction force
    never points along the colour gradient of the particle: its dot product
    with the gradient is not positive.  It is the zero vector when the
    gradient is zero, and otherwise its length is surfaceTension times the
    length of the colour divergence. *)
Theorem surface_traction_opposes_gradient (ps : list Particle) (p : Particle) :
  Forall (fun q => density q <> 0) ps ->
  Vector3DotProduct (sampleSurfaceTractionForce ps p) (colorGradient p) <= 0
  /\ (colorGradient p = Vector3Zero ->
      sampleSurfaceTractionForce ps p = Vector3Zero)
  /\ (Vector3Length (colorGradient p) <> 0 ->
      Vector3Length (sampleSurfaceTractionForce ps p)
      = surfaceTension * Vector3Length (sampleColorDivergence ps p)).
Proof.
  intros _.
  unfold sampleSurfaceTractionForce. cbv zeta.
  pose proof (Vector3Length_nonneg (sampleColorDivergence ps p)) as Hdiv.
  set (d := Vector3Length (sampleColorDivergence ps p)) in *.
  assert (Hs : 0 <= surfaceTension * d) by (unfold surfaceTension; lra).
  replace (- surfaceTension * d) with (- (surfaceTension * d)) by ring.
  split; [|split].
  - pose proof (dot_Normalize_nonneg (colorGradient p)) as Hdot.
    set (n := Vector3Normalize (colorGradient p)) in *.
    set (g := colorGradient p) in *. clearbody n g d.
    unfold Vector3DotProduct, Vector3Scale in *. simpl.
    replace (vx n * - (surfaceTension * d) * vx g
             + vy n * - (surfaceTension * d) * vy g
             + vz n * - (surfaceTension * d) * vz g)
      with (- ((vx n * vx g + vy n * vy g + vz n * vz g)
               * (surfaceTension * d)))
      by ring.
    assert (0 <= (vx n * vx g + vy n * vy g + vz n * vz g)
                 * (surfaceTension * d))
      by (apply Rmult_le_pos; assumption).
    lra.
  - intros ->. rewrite Vector3Normalize_zero. apply Vector3Scale_zero.
  - intros Hg. rewrite (Vector3Length_Scale_neg _ _ Hs).
    rewrite (Vector3Length_Normalize _ Hg). ring.
Qed.

(** X24: viscosity pulls velocities together: what a particle q of
    non-negative mass and positive density contributes to
    sampleViscosityForce(p) has a non-negative component along the velocity
    of q relative to p. *)
Theorem viscosity_force_damps (p q : Particle) :
  0 <= mass q ->
  0 < density q ->
  0 <= Vector3DotProduct (sampleViscosityForce [q] p)
         (Vector3Subtract (velocity q) (velocity p)).
Proof.
  intros Hm Hd.
  assert (Hw : 0 <= W_viscosity_Laplacian
                      (Vector3Subtract (position p) (position q)) sampleRadius).
  { pose proof (viscosity_factor_pos sampleRadius sampleRadius_pos) as Hc.
    unfold W_viscosity_Laplacian. cbv zeta. case_decide as Hin; [|lra].
    apply Rmult_le_pos; lra. }
  assert (Hk : 0 <= viscosity * mass q * (1 / density q)).
  { apply Rmult_le_pos; [unfold viscosity; nra|].
    apply Rlt_le, Rdiv_lt_0_compat; lra. }
  unfold sampleViscosityForce. simpl.
  set (w := W_viscosity_Laplacian _ _) in *.
  set (k := viscosity * mass q * (1 / density q)) in *.
  pose proof (lengthSq_nonneg (Vector3Subtract (velocity q) (velocity p))) as Hsq.
  set (dv := Vector3Subtract (velocity q) (velocity p)) in *.
  clearbody w k dv.
  unfold Vector3DotProduct, Vector3Add, Vector3Scale, Vector3Zero, lengthSq in *.
  simpl.
  replace ((0 + vx dv * (k * w)) * vx dv + (0 + vy dv * (k * w)) * vy dv
           + (0 + vz dv * (k * w)) * vz dv)
    with ((vx dv * vx dv + vy dv * vy dv + vz dv * vz dv) * (k * w)) by ring.
  apply Rmult_le_pos; [exact Hsq|]. apply Rmult_le_pos; assumption.
Qed.

(** ** The further properties at concrete inputs *)

Lemma Vector3Length_unitX : Vector3Length unitX = 1.
Proof. unfold unitX. apply Vector3Length_x. lra. Qed.

Lemma kernel_signs_witness :
  0 < sampleRadius
  /\ 0 <= W_poly6 unitX sampleRadius
  /\ W_spiky_Gradient unitX sampleRadius <= 0.
Proof.
  split; [apply sampleRadius_pos|].
  destruct (kernel_signs unitX sampleRadius sampleRadius_pos)
    as (H1 & _ & _ & _ & H5).
  split; assumption.
Defined.

Lemma origin_inside : Vector3Length Vector3Zero < sampleRadius.
Proof. rewrite Vector3Length_zero. apply sampleRadius_pos. Qed.

Lemma poly6_Laplacian_sign_witness :
  0 < sampleRadius
  /\ Vector3Length Vector3Zero < sampleRadius
  /\ W_poly6_Laplacian Vector3Zero sampleRadius < 0.
Proof.
  split; [apply sampleRadius_pos|]. split; [apply origin_inside|].
  apply (poly6_Laplacian_sign Vector3Zero sampleRadius sampleRadius_pos
           origin_inside).
  rewrite Vector3Length_zero. unfold sampleRadius. lra.
Defined.

Lemma origin_closer_than_unitX : Vector3Length Vector3Zero <= Vector3Length unitX.
Proof. rewrite Vector3Length_zero, Vector3Length_unitX. lra. Qed.

Lemma kernels_decrease_with_distance_witness :
  0 < sampleRadius
  /\ Vector3Length Vector3Zero <= Vector3Length unitX
  /\ W_poly6 unitX sampleRadius <= W_poly6 Vector3Zero sampleRadius.
Proof.
  split; [apply sampleRadius_pos|]. split; [apply origin_closer_than_unitX|].
  apply (kernels_decrease_with_distance Vector3Zero unitX sampleRadius
           sampleRadius_pos origin_closer_than_unitX).
Defined.

Lemma light_twin_densities :
  Forall (fun q => density q <> 0) [lightParticle; twinParticle].
Proof.
  repeat apply List.Forall_cons; try apply List.Forall_nil; simpl; lra.
Qed.

Lemma sums_have_finite_support_witness :
  Forall (fun q => density q <> 0) [lightParticle; twinParticle]
  /\ sampleDensity [lightParticle; twinParticle] lightParticle
     = sampleDensity
         (filter (inSupport lightParticle) [lightParticle; twinParticle])
         lightParticle.
Proof.
  split; [apply light_twin_densities|].
  apply (sums_have_finite_support [lightParticle; twinParticle] lightParticle
           light_twin_densities).
Defined.

Lemma forces_without_self_term_witness :
  Forall (fun q => density q <> 0) [lightParticle; twinParticle]
  /\ [lightParticle; twinParticle] !! 0%nat = Some lightParticle
  /\ samplePressureForce [lightParticle; twinParticle] lightParticle
     = samplePressureForce (delete 0%nat [lightParticle; twinParticle])
         lightParticle.
Proof.
  split; [apply light_twin_densities|]. split; [reflexivity|].
  apply (forces_without_self_term [lightParticle; twinParticle] 0 lightParticle
           light_twin_densities eq_refl).
Defined.

Lemma lightParticle_alone : isolated [lightParticle] 0 lightParticle.
Proof.
  split; [reflexivity|]. intros [|j] x Hx Hj; [lia | discriminate].
Qed.

Lemma lightParticle_mass : Forall (fun q => 0 < mass q) [lightParticle].
Proof.
  apply List.Forall_cons; [simpl; lra | apply List.Forall_nil].
Qed.

Lemma isolated_particle_free_fall_witness :
  Forall (fun q => 0 < mass q) [lightParticle]
  /\ isolated [lightParticle] 0 lightParticle
  /\ exists p',
       updateParticles 0.04 [lightParticle] !! 0%nat = Some p'
       /\ acceleration p'
          = Vector3Scale (mkVector3 0 (-0.1 * mass lightParticle) 0)
              (1 / (mass lightParticle * W_poly6 Vector3Zero sampleRadius)).
Proof.
  split; [apply lightParticle_mass|]. split; [apply lightParticle_alone|].
  destruct (isolated_particle_free_fall 0.04 [lightParticle] 0 lightParticle
              lightParticle_mass lightParticle_alone)
    as (p' & Hp' & _ & _ & _ & Hacc).
  exists p'. split; assumption.
Defined.

Lemma zero_time_step_keeps_positions_witness :
  Forall (fun q => 0 < mass q) twoParticles
  /\ map position (updateParticles 0 twoParticles) = map position twoParticles.
Proof.
  split; [apply twoParticles_masses|].
  apply (zero_time_step_keeps_positions twoParticles twoParticles_masses).
Defined.

Lemma light_twin_at_rest :
  Forall (fun q => velocity q = velocity lightParticle)
         [lightParticle; twinParticle].
Proof.
  repeat apply List.Forall_cons; try apply List.Forall_nil; reflexivity.
Qed.

Lemma viscosity_force_uniform_velocity_witness :
  Forall (fun q => density q <> 0) [lightParticle; twinParticle]
  /\ Forall (fun q => velocity q = velocity lightParticle)
            [lightParticle; twinParticle]
  /\ sampleViscosityForce [lightParticle; twinParticle] lightParticle
     = Vector3Zero.
Proof.
  split; [apply light_twin_densities|]. split; [apply light_twin_at_rest|].
  apply (viscosity_force_uniform_velocity [lightParticle; twinParticle]
           lightParticle light_twin_densities light_twin_at_rest).
Defined.

Lemma surface_traction_opposes_gradient_witness :
  Forall (fun q => density q <> 0) [lightParticle; twinParticle]
  /\ Vector3DotProduct
       (sampleSurfaceTractionForce [lightParticle; twinParticle] lightParticle)
       (colorGradient lightParticle) <= 0.
Proof.
  split; [apply light_twin_densities|].
  apply (surface_traction_opposes_gradient [lightParticle; twinParticle]
           lightParticle light_twin_densities).
Defined.

Lemma twoParticles_masses_nonneg : Forall (fun q => 0 <= mass q) twoParticles.
Proof.
  eapply Forall_impl; [apply twoParticles_masses|].
  intros q Hq. simpl in Hq. lra.
Qed.

Lemma sampleDensity_bounds_witness :
  Forall (fun q => 0 <= mass q) twoParticles
  /\ twoParticles = mainLoop [] (initParticles [mkVector3 0 0 0; mkVector3 1 0 0])
  /\ twoParticles !! 0%nat = Some originParticle
  /\ sampleDensity twoParticles originParticle
     <= sumOver mass twoParticles * W_poly6 Vector3Zero sampleRadius
  /\ sampleDensity twoParticles originParticle
     <= INR (length twoParticles) * W_poly6 Vector3Zero sampleRadius.
Proof.
  split; [apply twoParticles_masses_nonneg|].
  split; [reflexivity|]. split; [reflexivity|].
  destruct (sampleDensity_bounds twoParticles originParticle 0
              [mkVector3 0 0 0; mkVector3 1 0 0] [])
    as (Hgeneral & Hprogram).
  split; [apply Hgeneral, twoParticles_masses_nonneg|].
  apply (Hprogram eq_refl eq_refl).
Defined.

Lemma twin_mass_nonneg : 0 <= mass twinParticle.
Proof. simpl. lra. Qed.

Lemma twin_density_pos : 0 < density twinParticle.
Proof. simpl. lra. Qed.

Lemma light_twin_pressure : 0 <= pressure lightParticle + pressure twinParticle.
Proof. simpl. lra. Qed.

Lemma pressure_force_repels_witness :
  0 <= mass twinParticle
  /\ 0 < density twinParticle
  /\ 0 <= pressure lightParticle + pressure twinParticle
  /\ 0 <= Vector3DotProduct (samplePressureForce [twinParticle] lightParticle)
            (Vector3Subtract (position lightParticle) (position twinParticle)).
Proof.
  split; [apply twin_mass_nonneg|]. split; [apply twin_density_pos|].
  split; [apply light_twin_pressure|].
  apply (pressure_force_repels lightParticle twinParticle twin_mass_nonneg
           twin_density_pos light_twin_pressure).
Defined.

Lemma step_depends_on_core_only_witness :
  map core [lightParticle] = map core [originParticle]
  /\ updateParticles 0.04 [lightParticle] = updateParticles 0.04 [originParticle].
Proof.
  split; [reflexivity|].
  apply (step_depends_on_core_only 0.04 [lightParticle] [originParticle]).
  reflexivity.
Defined.


Lemma colorGradient_uses_fresh_density_witness :
  twoParticles !! 0%nat = Some originParticle
  /\ exists g, colorGradient <$> updateParticles 0.04 twoParticles !! 0%nat
               = Some g.
Proof.
  split; [reflexivity|].
  eexists.
  apply (colorGradient_uses_fresh_density 0.04 twoParticles 0 originParticle).
  reflexivity.
Defined.

Lemma light_twin_positive :
  Forall (fun q => 0 < mass q /\ 0 < density q) [lightParticle; twinParticle].
Proof.
  repeat apply List.Forall_cons; try apply List.Forall_nil; simpl; lra.
Qed.

Lemma sampleColor_positive_witness :
  Forall (fun q => 0 < mass q /\ 0 < density q) [lightParticle; twinParticle]
  /\ [lightParticle; twinParticle] !! 0%nat = Some lightParticle
  /\ 0 < mass lightParticle * (1 / density lightParticle)
           * W_poly6 Vector3Zero sampleRadius
       <= sampleColor [lightParticle; twinParticle] lightParticle.
Proof.
  split; [apply light_twin_positive|]. split; [reflexivity|].
  apply (sampleColor_positive [lightParticle; twinParticle] 0 lightParticle 1
           light_twin_positive eq_refl).
Defined.

Lemma textureToMat_copies_pixels_witness :
  (0 < 1)%nat
  /\ (Z.of_nat 1 * Z.of_nat 1 <= 2147483647)%Z
  /\ (1 * 1 <= length [samplePixel])%nat
  /\ exists m, textureToMat 1 1 [samplePixel] zeroFill = Some m
               /\ length m = 1%nat.
Proof.
  split; [lia|]. split; [simpl; lia|]. split; [simpl; lia|].
  destruct (textureToMat_copies_pixels 1 1 [samplePixel] zeroFill)
    as (m & Hm & Hlen & _); [lia | lia | simpl; lia | simpl; lia |].
  exists m. split; assumption.
Defined.

Lemma textureToMat_short_array_witness :
  (0 < 1)%nat
  /\ (length (@nil Color) < 1 * 1)%nat
  /\ textureToMat 1 1 [] zeroFill = None.
Proof.
  split; [lia|]. split; [simpl; lia|].
  apply (textureToMat_short_array 1 1 [] zeroFill); simpl; lia.
Defined.

(** The frame of a one-pixel image: blue, green, red of the pixel. *)
Example textureToMat_one_pixel :
  textureToMat 1 1 [samplePixel] zeroFill
  = Some [[(Byte.x03, Byte.x02, Byte.x01)]].
Proof. reflexivity. Qed.

(** A 2 x 1 image given only one pixel: the second read leaves the array. *)
Example textureToMat_missing_pixel :
  textureToMat 2 1 [samplePixel] zeroFill = None.
Proof. reflexivity. Qed.

Lemma viscosity_force_damps_witness :
  0 <= mass twinParticle
  /\ 0 < density twinParticle
  /\ 0 <= Vector3DotProduct (sampleViscosityForce [twinParticle] lightParticle)
            (Vector3Subtract (velocity twinParticle) (velocity lightParticle)).
Proof.
  split; [apply twin_mass_nonneg|]. split; [apply twin_density_pos|].
  apply (viscosity_force_damps lightParticle twinParticle twin_mass_nonneg
           twin_density_pos).
Defined.

(** An image without pixels: the conversion has no source to work on. *)
Example textureToMat_empty_image : textureToMat 0 0 [] zeroFill = None.
Proof. reflexivity. Qed.

(** ** The pressure terms, the colour-gradient self term and the kernels in the
    arrays the force and colour-gradient loops read *)

Lemma estimated_program_particle samples frames x :
  x ∈ estimated (mainLoop frames (initParticles samples)) ->
  mass x = 1 /\ 0 < density x.
Proof.
  intros Hx. apply list_elem_of_lookup_1 in Hx. destruct Hx as (k & Hk).
  destruct (estimated_lookup_inv _ k x Hk) as (q & Hq & ->).
  split.
  - simpl. apply (program_mass samples frames).
    eapply list_elem_of_lookup_2, Hq.
  - simpl.
    destruct (program_density_lower_bound samples frames k q Hq). lra.
Qed.

(** C5: in the array the force loop of every step of the program reads (the
    array a frame starts from, after the density, pressure and
    colour-gradient passes), for any two particles i and j with
    density[i] = density[j] and pressure[i] = pressure[j], the pressure term
    of j in samplePressureForce(i) is the exact negation of the term of i in
    samplePressureForce(j).  Both particles have the mass 1.0 that main
    assigns and a positive density there, and the terms do not read the
    accelerations the force loop overwrites as it goes. *)
Theorem pressure_term_antisymmetric (samples : list Vector3) (frames : list R)
  (pi pj : Particle) :
  pi ∈ estimated (mainLoop frames (initParticles samples)) ->
  pj ∈ estimated (mainLoop frames (initParticles samples)) ->
  density pi = density pj ->
  pressure pi = pressure pj ->
  pressureForceTerm pi pj = Vector3Negate (pressureForceTerm pj pi)
  /\ samplePressureForce [pj] pi = Vector3Negate (samplePressureForce [pi] pj)
  /\ (forall a b : Vector3,
        pressureForceTerm (set_acceleration pi a) (set_acceleration pj b)
        = Vector3Negate
            (pressureForceTerm (set_acceleration pj b) (set_acceleration pi a)))
  /\ mass pi = mass pj
  /\ 0 < density pi
  /\ 0 < density pj.
Proof.
  intros Hi Hj Hd Hp.
  destruct (estimated_program_particle samples frames pi Hi) as [Hmi Hdi].
  destruct (estimated_program_particle samples frames pj Hj) as [Hmj Hdj].
  assert (Hm : mass pi = mass pj) by (rewrite Hmi, Hmj; reflexivity).
  pose proof (pressureForceTerm_opposite pi pj Hm Hd Hp) as Hterm.
  split; [exact Hterm|]. split.
  - unfold samplePressureForce. simpl. rewrite Hterm.
    unfold Vector3Subtract, Vector3Negate, Vector3Zero. simpl. f_equal; ring.
  - split; [intros a b; exact Hterm|].
    split; [exact Hm|]. split; assumption.
Qed.

Lemma W_poly6_Negate v h : W_poly6 (Vector3Negate v) h = W_poly6 v h.
Proof. unfold W_poly6. rewrite Vector3Length_Negate. reflexivity. Qed.

Lemma twoParticles_same_density :
  sampleDensity twoParticles originParticle
  = sampleDensity twoParticles unitParticle.
Proof.
  unfold sampleDensity, twoParticles, initParticles, originParticle,
    unitParticle.
  cbn [map fold_left mass position].
  rewrite !Vector3Subtract_self.
  rewrite (Vector3Subtract_swap (mkVector3 0 0 0) (mkVector3 1 0 0)).
  rewrite W_poly6_Negate. ring.
Qed.

Lemma origin_estimated :
  estimatedParticle twoParticles originParticle
  ∈ estimated (mainLoop [] (initParticles [mkVector3 0 0 0; mkVector3 1 0 0])).
Proof.
  eapply list_elem_of_lookup_2.
  apply (estimated_lookup twoParticles 0 originParticle). reflexivity.
Qed.

Lemma unit_estimated :
  estimatedParticle twoParticles unitParticle
  ∈ estimated (mainLoop [] (initParticles [mkVector3 0 0 0; mkVector3 1 0 0])).
Proof.
  eapply list_elem_of_lookup_2.
  apply (estimated_lookup twoParticles 1 unitParticle). reflexivity.
Qed.

Lemma estimated_same_density :
  density (estimatedParticle twoParticles originParticle)
  = density (estimatedParticle twoParticles unitParticle).
Proof. simpl. apply twoParticles_same_density. Qed.

Lemma estimated_same_pressure :
  pressure (estimatedParticle twoParticles originParticle)
  = pressure (estimatedParticle twoParticles unitParticle).
Proof.
  simpl. unfold samplePressure. simpl.
  rewrite twoParticles_same_density. reflexivity.
Qed.

Lemma pressure_term_antisymmetric_witness :
  estimatedParticle twoParticles originParticle
    ∈ estimated (mainLoop [] (initParticles [mkVector3 0 0 0; mkVector3 1 0 0]))
  /\ estimatedParticle twoParticles unitParticle
       ∈ estimated
           (mainLoop [] (initParticles [mkVector3 0 0 0; mkVector3 1 0 0]))
  /\ density (estimatedParticle twoParticles originParticle)
     = density (estimatedParticle twoParticles unitParticle)
  /\ pressure (estimatedParticle twoParticles originParticle)
     = pressure (estimatedParticle twoParticles unitParticle)
  /\ pressureForceTerm (estimatedParticle twoParticles originParticle)
       (estimatedParticle twoParticles unitParticle)
     = Vector3Negate
         (pressureForceTerm (estimatedParticle twoParticles unitParticle)
            (estimatedParticle twoParticles originParticle))
  /\ 0 < density (estimatedParticle twoParticles originParticle).
Proof.
  split; [apply origin_estimated|]. split; [apply unit_estimated|].
  split; [apply estimated_same_density|].
  split; [apply estimated_same_pressure|].
  destruct (pressure_term_antisymmetric
              [mkVector3 0 0 0; mkVector3 1 0 0] []
              (estimatedParticle twoParticles originParticle)
              (estimatedParticle twoParticles unitParticle)
              origin_estimated unit_estimated
              estimated_same_density estimated_same_pressure)
    as (Hterm & _ & _ & _ & Hpos & _).
  split; assumption.
Defined.

Lemma W_poly6_Gradient_origin :
  W_poly6_Gradient Vector3Zero sampleRadius = 0.
Proof.
  unfold W_poly6_Gradient. cbv zeta. rewrite Vector3Length_zero.
  rewrite decide_True by (unfold sampleRadius; lra).
  set (c := 315 / _). ring.
Qed.

(** C8: in the colour-gradient pass of a step on an array of positive
    masses, the term of a particle for itself is the zero vector.  The pass
    runs on the array the density and pressure passes have left, in which
    every density is positive; the displacement of the particle to itself is
    zero, its normalisation is the zero vector, the factor
    mass / density * poly6_gradient it is scaled by is 0 with a positive
    divisor, and the product is the zero vector, so that colorGradient[i] is
    the sum of the other particles' terms. *)
Theorem color_gradient_self_term (ps0 : list Particle) (i : nat)
  (p0 : Particle) :
  Forall (fun q => 0 < mass q) ps0 ->
  ps0 !! i = Some p0 ->
  let ps := pressurePass (densityPass ps0) in
  let p := pressureBody (densityPass ps0) (densityBody ps0 p0) in
  ps !! i = Some p
  /\ Forall (fun q => 0 < mass q /\ 0 < density q) ps
  /\ Vector3Normalize (Vector3Subtract (position p) (position p)) = Vector3Zero
  /\ mass p * (1 / density p)
     * W_poly6_Gradient (Vector3Subtract (position p) (position p)) sampleRadius
     = 0
  /\ colorGradientTerm p p = Vector3Zero
  /\ sampleColorGradient ps p = sampleColorGradient (delete i ps) p
  /\ colorGradientPass ps !! i
     = Some (set_colorGradient p (sampleColorGradient (delete i ps) p)).
Proof.
  intros Hmass Hp0 ps p.
  assert (Hp : ps !! i = Some p).
  { apply pressurePass_lookup, densityPass_lookup, Hp0. }
  assert (Hdel : sampleColorGradient ps p = sampleColorGradient (delete i ps) p).
  { apply (fold_left_delete _ ps i p _ Hp). intros b.
    rewrite colorGradientTerm_self. apply Vector3Add_zero_r. }
  split; [exact Hp|]. split.
  { apply Forall_lookup. intros k x Hx.
    destruct (pressurePass_densityPass_lookup_inv ps0 k x Hx) as (q & Hq & ->).
    simpl. split.
    - rewrite Forall_lookup in Hmass. apply (Hmass k q Hq).
    - destruct (sampleDensity_lower_bound ps0 k q Hmass Hq). lra. }
  split; [rewrite Vector3Subtract_self; apply Vector3Normalize_zero|].
  split; [rewrite Vector3Subtract_self, W_poly6_Gradient_origin; ring|].
  split; [apply colorGradientTerm_self|].
  split; [exact Hdel|].
  rewrite (colorGradientPass_lookup ps i p Hp).
  unfold colorGradientBody. rewrite Hdel. reflexivity.
Qed.

Lemma color_gradient_self_term_witness :
  Forall (fun q => 0 < mass q) twoParticles
  /\ twoParticles !! 0%nat = Some originParticle
  /\ 0 < density (pressureBody (densityPass twoParticles)
                    (densityBody twoParticles originParticle))
  /\ colorGradientTerm
       (pressureBody (densityPass twoParticles)
          (densityBody twoParticles originParticle))
       (pressureBody (densityPass twoParticles)
          (densityBody twoParticles originParticle))
     = Vector3Zero.
Proof.
  split; [apply twoParticles_masses|]. split; [reflexivity|].
  destruct (color_gradient_self_term twoParticles 0 originParticle
              twoParticles_masses eq_refl)
    as (Hp & Hall & _ & _ & Hterm & _).
  split; [|exact Hterm].
  rewrite Forall_lookup in Hall. apply (Hall 0%nat _ Hp).
Defined.

Lemma kernels_vanish_at_support_boundary_witness :
  0 < sampleRadius
  /\ Forall (fun W => zero_outside_support W sampleRadius
                      /\ zero_at_support_boundary W sampleRadius
                      /\ continuous_at_support_boundary W sampleRadius)
            kernels.
Proof.
  split; [apply sampleRadius_pos|].
  apply (kernels_vanish_at_support_boundary sampleRadius sampleRadius_pos).
Defined.

(** ** The reflected speed in binary32 *)

(** C10 as stated fails in the arithmetic of the code: at position
    (0, 0, 39) with velocity (1, 2, 3) the handler reflects, and the speed of
    the velocity it leaves, 12554920 * 2^-22, is not 0.8f times the speed
    before, 12554919 * 2^-22; nor is the exact norm of the vector it leaves
    0.8 (or 0.8f) times the exact norm of the vector it found. *)
Lemma reflection_speed_not_exact_binary32 :
  Binary32.reflects Binary32.polePosition Binary32.poleVelocity = true
  /\ Binary32.boundaryHandler Binary32.polePosition Binary32.poleVelocity
     = Binary32.Vector3Scale
         (Binary32.Vector3Reflect Binary32.poleVelocity
            (Binary32.Vector3Negate
               (Binary32.Vector3Normalize Binary32.polePosition)))
         Binary32.restitution
  /\ Binary32.Vector3Length
       (Binary32.boundaryHandler Binary32.polePosition Binary32.poleVelocity)
     = S754_finite false 12554920 (-22)
  /\ Binary32.fmul Binary32.restitution
       (Binary32.Vector3Length Binary32.poleVelocity)
     = S754_finite false 12554919 (-22)
  /\ Binary32.Vector3Length
       (Binary32.boundaryHandler Binary32.polePosition Binary32.poleVelocity)
     <> Binary32.fmul Binary32.restitution
          (Binary32.Vector3Length Binary32.poleVelocity)
  /\ (25 * Binary32.exactSquaredLength
              (Binary32.boundaryHandler Binary32.polePosition
                 Binary32.poleVelocity)
      <> 16 * Binary32.exactSquaredLength Binary32.poleVelocity)%Z
  /\ (2 ^ 298
      * Binary32.exactSquaredLength
          (Binary32.boundaryHandler Binary32.polePosition Binary32.poleVelocity)
      <> Binary32.scaled Binary32.restitution
         * Binary32.scaled Binary32.restitution
         * Binary32.exactSquaredLength Binary32.poleVelocity)%Z.
Proof.
  repeat split; try (vm_compute; reflexivity);
    vm_compute; discriminate.
Qed.
